(** * The Illuminati Pvt Ltd API (main.py): handlers over a document store

    A shallow embedding of the request handlers of [main.py] and of the
    parts of FastAPI, pydantic and the persistence helper they lean on,
    followed by the properties of the handlers.

    Conventions.
    - A Python [dict] with string keys is a [gmap string pyval].
    - A Python [str] is a Rocq [string]. For ASCII text one element of
      the string is one character, so the slice [s[:50]] keeps 50
      elements; the marks in front of the labels of [test_database] are
      written as their UTF-8 bytes and are only ever compared whole.
    - A call that may raise has type [Py S A]: it takes the state of the
      outside world and gives back an [outcome] and the new state. *)

From Stdlib Require Import ZArith NArith List String Ascii DecimalString Lia.
From stdpp Require Import base option list gmap fin_maps strings.

Local Open Scope Z_scope.

(** ** Python values *)

(** The values a stored document holds in this program: JSON scalars and
    the ObjectId that MongoDB puts under [_id] (12 bytes, kept as the
    number they spell). *)
Inductive pyval : Type :=
| VNone
| VBool (b : bool)
| VInt (z : Z)
| VStr (s : string)
| VObjectId (oid : N).

#[global] Instance pyval_eq_dec : EqDecision pyval.
Proof. solve_decision. Defined.

Abbreviation dict := (gmap string pyval).

(** [bool(v)]: None, False, 0 and the empty string are falsy; an ObjectId
    defines neither [__bool__] nor [__len__], so it is always truthy. *)
Definition truthy (v : pyval) : bool :=
  match v with
  | VNone => false
  | VBool b => b
  | VInt z => negb (z =? 0)
  | VStr s => negb (String.eqb s "")
  | VObjectId _ => true
  end.

(** [str(z)] for an integer: decimal digits with a leading minus sign. *)
Definition str_int (z : Z) : string := NilZero.string_of_int (Z.to_int z).

Definition hex_digit (d : N) : ascii :=
  match d with
  | 0%N => "0" | 1%N => "1" | 2%N => "2" | 3%N => "3"
  | 4%N => "4" | 5%N => "5" | 6%N => "6" | 7%N => "7"
  | 8%N => "8" | 9%N => "9" | 10%N => "a" | 11%N => "b"
  | 12%N => "c" | 13%N => "d" | 14%N => "e" | _ => "f"
  end%char.

(** The [k] low hexadecimal digits of [n], most significant first, put in
    front of [acc]. *)
Fixpoint hex_digits (k : nat) (n : N) (acc : string) : string :=
  match k with
  | O => acc
  | S k' => hex_digits k' (n / 16)%N (String (hex_digit (n mod 16)%N) acc)
  end.

(** [str(ObjectId)]: the 12 bytes as 24 lowercase hexadecimal digits. *)
Definition str_ObjectId (oid : N) : string := hex_digits 24 oid "".

(** [str(v)] *)
Definition py_str (v : pyval) : string :=
  match v with
  | VNone => "None"
  | VBool true => "True"
  | VBool false => "False"
  | VInt z => str_int z
  | VStr s => s
  | VObjectId oid => str_ObjectId oid
  end.

(** [s[:n]] *)
Fixpoint str_prefix (n : nat) (s : string) : string :=
  match n, s with
  | S n', String c s' => String c (str_prefix n' s')
  | _, _ => EmptyString
  end.

(** [d.get(k)]: the value under [k], or None. *)
Definition dict_get (d : dict) (k : string) : pyval := default VNone (d !! k).

(** ** Exceptions and calls that may raise *)

(** An instance of [Exception]: its class and its [str()], with
    [HTTPException] (FastAPI's way to answer with an error status) kept
    apart because the framework inspects it. *)
Inductive exn : Type :=
| Exception (cls : string) (msg : string)
| HTTPException (status_code : Z) (detail : string).

(** [str(e)]; Starlette prints an HTTPException as "status: detail". *)
Definition exn_str (e : exn) : string :=
  match e with
  | Exception _ msg => msg
  | HTTPException status_code detail => str_int status_code +:+ ": " +:+ detail
  end.

Inductive outcome (A : Type) : Type :=
| Returns (a : A)
| Raises (e : exn).
Arguments Returns {A} a.
Arguments Raises {A} e.

Definition Py (S A : Type) : Type := S → outcome A * S.

Definition py_ret {S A} (a : A) : Py S A := λ s, (Returns a, s).

Definition py_raise {S A} (e : exn) : Py S A := λ s, (Raises e, s).

Definition py_bind {S A B} (m : Py S A) (k : A → Py S B) : Py S B :=
  λ s, match m s with
       | (Returns a, s') => k a s'
       | (Raises e, s') => (Raises e, s')
       end.

(** [try: body / except Exception as e: handler(e)]. What the body did to
    the state before it raised stays done. *)
Definition py_try {S A} (body : Py S A) (handler : exn → Py S A) : Py S A :=
  λ s, match body s with
       | (Returns a, s') => (Returns a, s')
       | (Raises e, s') => handler e s'
       end.

Declare Scope py_scope.
Delimit Scope py_scope with py.
Notation "'let*' x := m 'in' k" := (py_bind m (λ x, k))
  (at level 10, x name, m at level 100, k at level 200) : py_scope.
Notation "'try' body 'except' e => handler" := (py_try body (λ e, handler))
  (at level 10, body at level 100, e name, handler at level 200) : py_scope.

(** A call whose outcome does not depend on the state. *)
Definition py_call {S A} (o : outcome A) : Py S A := λ s, (o, s).

(** [for x in l: acc = body(x, acc)] *)
Fixpoint for_items {S A B} (l : list A) (body : A → B → Py S B) (acc : B)
  : Py S B :=
  match l with
  | [] => py_ret acc
  | x :: l' => (let* acc' := body x acc in for_items l' body acc')%py
  end.

(** ** pydantic models *)

(** A field of a model: what validation makes of an input value ([None]
    when it refuses it) and the default used when the input has no such
    key ([None] for a required field). *)
Record FieldInfo : Type := {
  fi_validate : pyval → option pyval;
  fi_default : option pyval;
}.

Record Schema : Type := {
  title : string;
  fields : list (string * FieldInfo);
}.

Definition field_names (s : Schema) : list string := (fields s).*1.

(** [str] *)
Definition str_type (v : pyval) : option pyval :=
  match v with
  | VStr s => Some (VStr s)
  | _ => None
  end.

(** [Optional[t]] *)
Definition Optional (t : pyval → option pyval) (v : pyval) : option pyval :=
  match v with
  | VNone => Some VNone
  | _ => t v
  end.

Definition required (t : pyval → option pyval) : FieldInfo :=
  {| fi_validate := t; fi_default := None |}.

Definition with_default (t : pyval → option pyval) (d : pyval) : FieldInfo :=
  {| fi_validate := t; fi_default := Some d |}.

(** A subclass that annotates [name]: the field replaces the inherited
    one of that name where it stands, or comes after the inherited ones. *)
Fixpoint override (fs : list (string * FieldInfo)) (name : string)
    (fi : FieldInfo) : list (string * FieldInfo) :=
  match fs with
  | [] => [(name, fi)]
  | (n, x) :: fs' =>
      if decide (n = name) then (n, fi) :: fs'
      else (n, x) :: override fs' name fi
  end.

Definition subclass (base : Schema) (cls : string) (name : string)
    (fi : FieldInfo) : Schema :=
  {| title := cls; fields := override (fields base) name fi |}.

(** pydantic takes a name with a leading underscore for a private
    attribute, never for a field, and a class has one field per name. *)
Definition is_field_name (n : string) : bool :=
  match n with
  | String "_" _ => false
  | _ => true
  end.

Definition schema_wf (s : Schema) : bool :=
  forallb is_field_name (field_names s) && bool_decide (NoDup (field_names s)).

Inductive field_error : Type := Missing | Invalid.

(** Validation of the keyword arguments [data] against the fields, in
    declaration order: the errors found and the validated values. Keys of
    [data] that name no field are ignored. *)
Fixpoint validate_fields (fs : list (string * FieldInfo)) (data : dict)
  : list (string * field_error) * dict :=
  match fs with
  | [] => ([], ∅)
  | (n, fi) :: fs' =>
      let '(errors, values) := validate_fields fs' data in
      match data !! n with
      | Some v =>
          match fi_validate fi v with
          | Some v' => (errors, <[n := v']> values)
          | None => ((n, Invalid) :: errors, values)
          end
      | None =>
          match fi_default fi with
          | Some dv => (errors, <[n := dv]> values)
          | None => ((n, Missing) :: errors, values)
          end
      end
  end.

(** The text of a pydantic ValidationError is the library's business: it
    is a function of the model's name and of the errors found. *)
Class Pydantic : Type := {
  ValidationError_str : string → list (string * field_error) → string;
}.

(** A model called on the keyword arguments [data]: the instance, seen as
    the dict of its fields, or a ValidationError. *)
Definition BaseModel_init `{Pydantic} (s : Schema) (data : dict) : outcome dict :=
  match validate_fields (fields s) data with
  | ([], values) => Returns values
  | (errors, _) =>
      Raises (Exception "ValidationError" (ValidationError_str (title s) errors))
  end.

(** The two models main.py imports from [schemas.py]. Their fields are
    not fixed here: the development holds for any. *)
Class Schemas : Type := {
  Inquiry : Schema;
  Application : Schema;
}.

(** [InquiryCreateResponse] and [ApplicationCreateResponse] of main.py. *)
Definition InquiryCreateResponse : Schema :=
  {| title := "InquiryCreateResponse";
     fields := [("id", required str_type); ("message", required str_type)] |}.

Definition ApplicationCreateResponse : Schema :=
  {| title := "ApplicationCreateResponse";
     fields := [("id", required str_type); ("message", required str_type)] |}.

(** [class InquiryOut(Inquiry): id: Optional[str] = None] *)
Definition InquiryOut `{Schemas} : Schema :=
  subclass Inquiry "InquiryOut" "id" (with_default (Optional str_type) VNone).

(** [class ApplicationOut(Application): id: Optional[str] = None] *)
Definition ApplicationOut `{Schemas} : Schema :=
  subclass Application "ApplicationOut" "id" (with_default (Optional str_type) VNone).

(** ** FastAPI *)

Inductive content : Type :=
| JObject (o : dict)
| JArray (a : list dict)
| JErrors (loc : list (string * string))
| JText (s : string).

Record Response : Type := { status : Z; body : content }.

(** [Query(default, ge=.., le=..)] on an integer parameter: the default
    when the parameter is absent, the value when it is in range, and a
    refusal otherwise. *)
Definition Query (dflt : Z) (ge le : Z) (raw : option Z) : option Z :=
  match raw with
  | None => Some dflt
  | Some v => if (ge <=? v) && (v <=? le) then Some v else None
  end.

(** The answer to a request whose parameters did not validate. *)
Definition unprocessable (loc : list (string * string)) : Response :=
  {| status := 422; body := JErrors loc |}.

Definition internal_server_error : Response :=
  {| status := 500; body := JText "Internal Server Error" |}.

(** What the framework answers once the handler is done: the encoded
    return value, the status and detail of an HTTPException, or a bare
    500 for any other exception. *)
Definition respond {A} (encode : A → outcome content) (r : outcome A)
  : Response :=
  match r with
  | Returns a =>
      match encode a with
      | Returns c => {| status := 200; body := c |}
      | Raises _ => internal_server_error
      end
  | Raises (HTTPException status_code detail) =>
      {| status := status_code; body := JObject {[ "detail" := VStr detail ]} |}
  | Raises (Exception _ _) => internal_server_error
  end.

(** ** The persistence helper, as the handlers see it *)

(** What [get_documents] hands back is iterated once: it yields documents
    and then ends or raises. *)
Record cursor : Type := Cursor {
  items : list dict;
  failure : option exn;
}.

Class Storage (S : Type) : Type := {
  create_document : string → dict → Py S string;
  get_documents : string → dict → Z → Py S cursor;
}.

(** [for d in docs: acc = body(d, acc)] *)
Definition for_in {S B} (docs : cursor) (body : dict → B → Py S B) (acc : B)
  : Py S B :=
  (let* acc' := for_items (items docs) body acc in
   match failure docs with
   | None => py_ret acc'
   | Some e => py_raise e
   end)%py.

(** ** The handlers of main.py *)

Section Handlers.
Context {pydantic : Pydantic} {schemas : Schemas} {S : Type} {storage : Storage S}.

Local Open Scope py_scope.

(** [POST /api/inquiries] *)
Definition create_inquiry (inquiry : dict) : Py S dict :=
  try
    (let* new_id := create_document "inquiry" inquiry in
     py_ret {[ "id" := VStr new_id;
               "message" := VStr "Inquiry received. Our team will contact you shortly." ]})
  except e => py_raise (HTTPException 500 (exn_str e)).

(** [GET /api/inquiries] *)
Definition list_inquiries (limit : Z) : Py S (list dict) :=
  try
    (let* docs := get_documents "inquiry" ∅ limit in
     for_in docs (λ d out,
       let d_copy : dict := filter (λ kv, kv.1 ∉ ["_id"]) d in
       let d_copy :=
         <["id" := if truthy (dict_get d "_id")
                   then VStr (py_str (dict_get d "_id")) else VNone]> d_copy in
       let* o := py_call (BaseModel_init InquiryOut d_copy) in
       py_ret (out ++ [o])) [])
  except e => py_raise (HTTPException 500 (exn_str e)).

(** [POST /api/applications] *)
Definition create_application (application : dict) : Py S dict :=
  try
    (let* new_id := create_document "application" application in
     py_ret {[ "id" := VStr new_id;
               "message" := VStr "Application submitted. Our HR team will reach out if there's a fit." ]})
  except e => py_raise (HTTPException 500 (exn_str e)).

(** [GET /api/applications] *)
Definition list_applications (limit : Z) : Py S (list dict) :=
  try
    (let* docs := get_documents "application" ∅ limit in
     for_in docs (λ d out,
       let d_copy : dict := filter (λ kv, kv.1 ∉ ["_id"]) d in
       let d_copy :=
         <["id" := if truthy (dict_get d "_id")
                   then VStr (py_str (dict_get d "_id")) else VNone]> d_copy in
       let* o := py_call (BaseModel_init ApplicationOut d_copy) in
       py_ret (out ++ [o])) [])
  except e => py_raise (HTTPException 500 (exn_str e)).

(** *** The routes: request validation, handler, response model *)

(** A body that validates reaches the handler as the model instance; the
    handler's dict goes through the response model. A body that does not
    is answered with one entry per field in error, in field order. *)
Definition post_route (model response_model : Schema)
    (handler : dict → Py S dict) (request_body : dict) : S → Response * S :=
  λ s, match BaseModel_init model request_body with
       | Raises _ =>
           (unprocessable
              ((λ e, ("body", e.1)) <$> (validate_fields (fields model) request_body).1),
            s)
       | Returns instance =>
           let '(r, s') := handler instance s in
           (respond (λ d, match BaseModel_init response_model d with
                          | Returns o => Returns (JObject o)
                          | Raises e => Raises e
                          end) r, s')
       end.

(** [limit: int = Query(20, ge=1, le=100)]; the instances the handler
    returns are of the response model already and are encoded as they are. *)
Definition list_route (handler : Z → Py S (list dict)) (limit : option Z)
  : S → Response * S :=
  λ s, match Query 20 1 100 limit with
       | None => (unprocessable [("query", "limit")], s)
       | Some limit =>
           let '(r, s') := handler limit s in
           (respond (λ out, Returns (JArray out)) r, s')
       end.

Definition post_api_inquiries : dict → S → Response * S :=
  post_route Inquiry InquiryCreateResponse create_inquiry.

Definition get_api_inquiries : option Z → S → Response * S :=
  list_route list_inquiries.

Definition post_api_applications : dict → S → Response * S :=
  post_route Application ApplicationCreateResponse create_application.

Definition get_api_applications : option Z → S → Response * S :=
  list_route list_applications.

(** *** The two document kinds, side by side *)

Inductive document_kind : Type := inquiry | application.

Definition collection (k : document_kind) : string :=
  match k with
  | inquiry => "inquiry"
  | application => "application"
  end.

Definition model_of (k : document_kind) : Schema :=
  match k with
  | inquiry => Inquiry
  | application => Application
  end.

Definition Out_of (k : document_kind) : Schema :=
  match k with
  | inquiry => InquiryOut
  | application => ApplicationOut
  end.

Definition message_of (k : document_kind) : string :=
  match k with
  | inquiry => "Inquiry received. Our team will contact you shortly."
  | application =>
      "Application submitted. Our HR team will reach out if there's a fit."
  end.

Definition create_handler (k : document_kind) : dict → Py S dict :=
  match k with
  | inquiry => create_inquiry
  | application => create_application
  end.

Definition list_handler (k : document_kind) : Z → Py S (list dict) :=
  match k with
  | inquiry => list_inquiries
  | application => list_applications
  end.

Definition create_endpoint (k : document_kind) : dict → S → Response * S :=
  match k with
  | inquiry => post_api_inquiries
  | application => post_api_applications
  end.

Definition list_endpoint (k : document_kind) : option Z → S → Response * S :=
  match k with
  | inquiry => get_api_inquiries
  | application => get_api_applications
  end.

End Handlers.

#[global] Instance document_kind_eq_dec : EqDecision document_kind.
Proof. solve_decision. Defined.

(** ** The diagnostic endpoint *)

(** The [response] dict of [test_database], one field per key. *)
Record Diagnostic : Type := {
  backend : string;
  database : string;
  database_url : option string;
  database_name : option string;
  connection_status : string;
  collections : list string;
}.

(** What [test_database] can observe of the database handle: the result
    of reading [db.name] and of calling [db.list_collection_names()]. *)
Record Database : Type := {
  name : outcome string;
  list_collection_names : outcome (list string);
}.

(** [hasattr(o, attr)] from the result of reading the attribute: False on
    an AttributeError; any other exception goes through. *)
Definition hasattr {S A} (read : outcome A) : Py S bool :=
  py_call match read with
          | Returns _ => Returns true
          | Raises (Exception cls msg) =>
              if decide (cls = "AttributeError") then Returns false
              else Raises (Exception cls msg)
          | Raises e => Raises e
          end.

(** [response[key] = value] *)
Definition set_database (v : string) : Py Diagnostic unit :=
  λ r, (Returns tt,
        {| backend := backend r; database := v; database_url := database_url r;
           database_name := database_name r;
           connection_status := connection_status r;
           collections := collections r |}).

Definition set_database_url (v : option string) : Py Diagnostic unit :=
  λ r, (Returns tt,
        {| backend := backend r; database := database r; database_url := v;
           database_name := database_name r;
           connection_status := connection_status r;
           collections := collections r |}).

Definition set_database_name (v : option string) : Py Diagnostic unit :=
  λ r, (Returns tt,
        {| backend := backend r; database := database r;
           database_url := database_url r; database_name := v;
           connection_status := connection_status r;
           collections := collections r |}).

Definition set_connection_status (v : string) : Py Diagnostic unit :=
  λ r, (Returns tt,
        {| backend := backend r; database := database r;
           database_url := database_url r; database_name := database_name r;
           connection_status := v; collections := collections r |}).

Definition set_collections (v : list string) : Py Diagnostic unit :=
  λ r, (Returns tt,
        {| backend := backend r; database := database r;
           database_url := database_url r; database_name := database_name r;
           connection_status := connection_status r; collections := v |}).

(** The truth value of [os.getenv(k)]: set, and not to the empty string. *)
Definition env_truthy (v : option string) : bool :=
  match v with
  | Some s => negb (String.eqb s "")
  | None => false
  end.

(** [GET /test]. [db] is the module-level handle ([None] when the
    database is not configured), [getenv] the process environment. *)
Definition test_database (db : option Database) (getenv : string → option string)
  : outcome Diagnostic :=
  let response :=
    {| backend := "✅ Running";
       database := "❌ Not Available";
       database_url := None;
       database_name := None;
       connection_status := "Not Connected";
       collections := [] |} in
  let run : Py Diagnostic unit :=
    (let* _ :=
       try
         match db with
         | Some db =>
             let* _ := set_database "✅ Available" in
             let* _ := set_database_url (Some "✅ Configured") in
             let* has_name := hasattr (name db) in
             let* n := if has_name : bool then py_call (name db)
                       else py_ret "✅ Connected" in
             let* _ := set_database_name (Some n) in
             let* _ := set_connection_status "Connected" in
             try
               (let* collections := py_call (list_collection_names db) in
                let* _ := set_collections (take 10 collections) in
                set_database "✅ Connected & Working")
             except e =>
               set_database ("⚠️  Connected but Error: " +:+ str_prefix 50 (exn_str e))
         | None => set_database "⚠️  Available but not initialized"
         end
       except e => set_database ("❌ Error: " +:+ str_prefix 50 (exn_str e)) in
     let* _ := set_database_url
                 (Some (if env_truthy (getenv "DATABASE_URL")
                        then "✅ Set" else "❌ Not Set")) in
     set_database_name
       (Some (if env_truthy (getenv "DATABASE_NAME")
              then "✅ Set" else "❌ Not Set")))%py in
  match run response with
  | (Returns _, response) => Returns response
  | (Raises e, _) => Raises e
  end.

(** ** The document store *)

(** Modelled from the spec: [database.py] ([create_document],
    [get_documents] and the handle [db]) is not among the sources. The
    spec has each stored document acquire a server-generated unique
    identifier at insert time, [create_document] insert the payload into
    the collection named after the kind and return the new identifier as a
    string (24 hexadecimal digits in its example), [get_documents] return
    up to [limit] documents matching the filter in insertion order, and
    both fail with a storage error when the database is unreachable or
    refuses the operation. The identifiers are taken from a 12-byte
    counter; the documents come back with the ObjectId under [_id], which
    is what the handlers of main.py convert. *)
Record Mongo : Type := {
  unavailable : option exn;
  next_oid : N;
  stored : gmap string (list dict);
}.

Definition Mongo_empty : Mongo :=
  {| unavailable := None; next_oid := 0; stored := ∅ |}.

(** Modelled from the spec: the filter of [get_documents], which the spec
    only ever has empty. The empty filter matches every document; a key
    in the filter asks for that value in the document. *)
Definition matches (filter_dict d : dict) : bool :=
  bool_decide (map_Forall (λ k v, d !! k = Some v) filter_dict).

(** Modelled from the spec: insert-one-document-and-return-id. *)
Definition Mongo_create_document (kind : string) (payload : dict)
  : Py Mongo string :=
  λ m, match unavailable m with
       | Some e => (Raises e, m)
       | None =>
           let oid := next_oid m in
           let doc := <["_id" := VObjectId oid]> payload in
           (Returns (str_ObjectId oid),
            {| unavailable := None;
               next_oid := ((oid + 1) mod 2 ^ 96)%N;
               stored := <[kind := (stored m !!! kind) ++ [doc]]> (stored m) |})
       end.

(** Modelled from the spec: find-many-documents-with-filter-and-limit. *)
Definition Mongo_get_documents (kind : string) (filter_dict : dict) (limit : Z)
  : Py Mongo cursor :=
  λ m, match unavailable m with
       | Some e => (Raises e, m)
       | None =>
           (Returns
              {| items := take (Z.to_nat limit)
                            (List.filter (matches filter_dict) (stored m !!! kind));
                 failure := None |}, m)
       end.

Definition Mongo_Storage : Storage Mongo :=
  {| create_document := Mongo_create_document;
     get_documents := Mongo_get_documents |}.

(** Every stored document validates against the model of its kind. *)
Definition store_valid `{Pydantic} `{Schemas} (m : Mongo) : Prop :=
  ∀ k, Forall (λ d, ∃ p, BaseModel_init (model_of k) d = Returns p)
         (stored m !!! collection k).

(** An instance of the model validates again, as the values pydantic
    produces for the standard types do. *)
Definition revalidates `{Pydantic} (s : Schema) : Prop :=
  ∀ data p, BaseModel_init s data = Returns p → ∃ p', BaseModel_init s p = Returns p'.

(** A field whose validated values and default validate again. *)
Definition field_stable (fi : FieldInfo) : Prop :=
  (∀ v v', fi_validate fi v = Some v' → is_Some (fi_validate fi v')) ∧
  (∀ dv, fi_default fi = Some dv → is_Some (fi_validate fi dv)).

(** What can happen to the store: a request to one of the four document
    endpoints, or the database becoming unreachable or reachable again. *)
Inductive api_step `{Pydantic} `{Schemas} : Mongo → Mongo → Prop :=
| step_post (k : document_kind) (request_body : dict) (m : Mongo) :
    api_step m (create_endpoint (storage := Mongo_Storage) k request_body m).2
| step_get (k : document_kind) (limit : option Z) (m : Mongo) :
    api_step m (list_endpoint (storage := Mongo_Storage) k limit m).2
| step_outage (e : option exn) (m : Mongo) :
    api_step m {| unavailable := e; next_oid := next_oid m; stored := stored m |}.

(** ** Instances to run the model on *)

Definition example_Pydantic : Pydantic :=
  {| ValidationError_str := λ cls errors, "validation error for " +:+ cls |}.

(** The Inquiry of the spec's example (name, email, message) and an
    Application of the same kind. *)
Definition example_Schemas : Schemas :=
  {| Inquiry :=
       {| title := "Inquiry";
          fields := [("name", required str_type); ("email", required str_type);
                     ("message", required str_type)] |};
     Application :=
       {| title := "Application";
          fields := [("name", required str_type); ("email", required str_type);
                     ("position", required str_type);
                     ("cover_letter", with_default (Optional str_type) VNone)] |} |}.

Definition example_inquiry : dict :=
  {[ "name" := VStr "A"; "email" := VStr "a@x.com"; "message" := VStr "hi" ]}.

Definition example_application : dict :=
  {[ "name" := VStr "A"; "email" := VStr "a@x.com"; "position" := VStr "clerk";
     "cover_letter" := VNone ]}.

(** A storage that only records the calls it receives. *)
Inductive storage_call : Type :=
| CreateDocument (kind : string) (payload : dict)
| GetDocuments (kind : string) (filter_dict : dict) (limit : Z).

Definition Recorder_Storage : Storage (list storage_call) :=
  {| create_document := λ kind payload log,
       (Returns "", log ++ [CreateDocument kind payload]);
     get_documents := λ kind filter_dict limit log,
       (Returns {| items := []; failure := None |},
        log ++ [GetDocuments kind filter_dict limit]) |}.

(** A storage whose documents cannot be read to the end. *)
Definition Flaky_Storage : Storage unit :=
  {| create_document := λ kind payload u,
       (Raises (Exception "WriteError" "insert refused"), u);
     get_documents := λ kind filter_dict limit u,
       (Returns {| items := [];
                   failure := Some (Exception "CursorNotFound" "cursor lost") |},
        u) |}.

(** A store that cannot be reached. *)
Definition Mongo_down : Mongo :=
  {| unavailable := Some (Exception "ServerSelectionTimeoutError" "no servers");
     next_oid := 0; stored := ∅ |}.

(** The store after the POST of [example_inquiry] on the empty one. *)
Definition Mongo_one : Mongo :=
  {| unavailable := None; next_oid := 1;
     stored := {[ "inquiry" := [ <["_id" := VObjectId 0]> example_inquiry ] ]} |}.

(** The store after a second POST of [example_inquiry]. *)
Definition Mongo_two : Mongo :=
  {| unavailable := None; next_oid := 2;
     stored := {[ "inquiry" := [ <["_id" := VObjectId 0]> example_inquiry;
                                 <["_id" := VObjectId 1]> example_inquiry ] ]} |}.

(** A handle on a database of twelve collections. *)
Definition example_Database : Database :=
  {| name := Returns "illuminati";
     list_collection_names :=
       Returns ["inquiry"; "application"; "user"; "product"; "c5"; "c6"; "c7";
                "c8"; "c9"; "c10"; "c11"; "c12"] |}.

(** A store whose inquiries were not inserted by this program: one has no
    [_id], one has 0 for [_id]. *)
Definition Mongo_legacy : Mongo :=
  {| unavailable := None; next_oid := 0;
     stored := {[ "inquiry" :=
                    [ example_inquiry; <["_id" := VInt 0]> example_inquiry ] ]} |}.

(** ** What the list handlers do to one document *)

(** The value the handlers put under [id]. *)
Definition exposed_id (d : dict) : pyval :=
  if truthy (dict_get d "_id") then VStr (py_str (dict_get d "_id")) else VNone.

(** The keyword arguments the handlers build from a stored document. *)
Definition d_copy_of (d : dict) : dict :=
  <["id" := exposed_id d]> (delete "_id" d).

(** The instances the loop of a list handler appends, document by
    document, up to the first that does not validate. *)
Fixpoint shape_all `{Pydantic} (Out : Schema) (docs : list dict)
  : outcome (list dict) :=
  match docs with
  | [] => Returns []
  | d :: docs' =>
      match BaseModel_init Out (d_copy_of d) with
      | Raises e => Raises e
      | Returns o =>
          match shape_all Out docs' with
          | Raises e => Raises e
          | Returns out => Returns (o :: out)
          end
      end
  end.

(** The outcome of a handler is a return value or the HTTPException 500
    it raises for FastAPI; nothing else leaves it. *)
Definition contained {A} (r : outcome A) : Prop :=
  match r with
  | Returns _ => True
  | Raises (HTTPException 500 _) => True
  | Raises _ => False
  end.

(** What validation makes of field [n] of [data]. *)
Definition field_value (data : dict) (n : string) (fi : FieldInfo) : option pyval :=
  match data !! n with
  | Some v => fi_validate fi v
  | None => fi_default fi
  end.

(** The outcome of a list handler from the outcome of [get_documents]. *)
Definition list_result `{Pydantic} (Out : Schema) (r : outcome cursor)
  : outcome (list dict) :=
  match r with
  | Raises e => Raises (HTTPException 500 (exn_str e))
  | Returns docs =>
      match shape_all Out (items docs) with
      | Raises e => Raises (HTTPException 500 (exn_str e))
      | Returns out =>
          match failure docs with
          | None => Returns out
          | Some e => Raises (HTTPException 500 (exn_str e))
          end
      end
  end.

(** The answer of FastAPI to an HTTPException. *)
Definition error_response (status_code : Z) (detail : string) : Response :=
  {| status := status_code; body := JObject {[ "detail" := VStr detail ]} |}.

(** A store with an inquiry that lacks the email and the message. *)
Definition Mongo_broken : Mongo :=
  {| unavailable := None; next_oid := 2;
     stored := {[ "inquiry" := [ <["_id" := VObjectId 0]> example_inquiry;
                                 {[ "_id" := VObjectId 1; "name" := VStr "A" ]} ] ]} |}.

(** [Mongo_one] with a field [id] of its own in the stored inquiry. *)
Definition Mongo_own_id : Mongo :=
  {| unavailable := None; next_oid := 1;
     stored := {[ "inquiry" :=
                    [ <["id" := VStr "mine"]>
                        (<["_id" := VObjectId 0]> example_inquiry) ] ]} |}.

(** What the spec asks of the answer to the GET that follows the POST of
    [payload]: a sequence with a document whose non-id fields equal the
    submitted payload and whose [id] is a non-empty string. *)
Definition lists_payload (r : Response) (payload : dict) : Prop :=
  ∃ out o id,
    r = {| status := 200; body := JArray out |} ∧
    o ∈ out ∧
    delete "id" o = delete "id" payload ∧
    o !! "id" = Some (VStr id) ∧ id ≠ "".

(** Bodies the example models accept without being instances of them:
    an inquiry with a key the model does not declare, and an application
    that leaves the optional cover letter out. *)
Definition inquiry_with_source : dict :=
  <["source" := VStr "web"]> example_inquiry.

Definition application_without_letter : dict :=
  {[ "name" := VStr "A"; "email" := VStr "a@x.com"; "position" := VStr "clerk" ]}.

(** Models whose Inquiry has [phone: str = None], a default its own field
    refuses when it is validated. *)
Definition defaulted_Schemas : Schemas :=
  {| Inquiry :=
       {| title := "Inquiry";
          fields := [("name", required str_type);
                     ("phone", with_default str_type VNone)] |};
     Application := Application (Schemas := example_Schemas) |}.

(** A text of ASCII characters only: there an element of the string and a
    character of the Python [str] are the same thing. *)
Fixpoint is_ascii_text (s : string) : bool :=
  match s with
  | EmptyString => true
  | String c s' => (N_of_ascii c <? 128)%N && is_ascii_text s'
  end.

(** [db.name] can be read, or the handle has no such attribute. *)
Definition name_readable (db : Database) : Prop :=
  match name db with
  | Returns _ => True
  | Raises (Exception cls _) => cls = "AttributeError"
  | Raises (HTTPException _ _) => False
  end.

(** * Properties *)

(** ** Strings of values *)

Example str_int_negative : str_int (-42) = "-42".
Proof. reflexivity. Qed.

Example str_int_zero : str_int 0 = "0".
Proof. reflexivity. Qed.

Example str_ObjectId_example :
  str_ObjectId 0x507f1f77bcf86cd799439011 = "507f1f77bcf86cd799439011".
Proof. reflexivity. Qed.

Example exposed_id_ObjectId :
  exposed_id {[ "_id" := VObjectId 255; "name" := VStr "A" ]}
  = VStr "0000000000000000000000ff".
Proof. reflexivity. Qed.

Example exposed_id_missing : exposed_id {[ "name" := VStr "A" ]} = VNone.
Proof. reflexivity. Qed.

Example exposed_id_empty_string :
  exposed_id {[ "_id" := VStr ""; "name" := VStr "A" ]} = VNone.
Proof. reflexivity. Qed.

(** ** The limit parameter *)

Lemma Query_in_range (dflt ge le v : Z) :
  ge ≤ v ≤ le → Query dflt ge le (Some v) = Some v.
Proof.
  intros Hv. unfold Query.
  replace ((ge <=? v) && (v <=? le)) with true; [done|].
  symmetry. apply andb_true_iff. rewrite !Z.leb_le. lia.
Qed.

Lemma Query_out_of_range (dflt ge le v : Z) :
  v < ge ∨ le < v → Query dflt ge le (Some v) = None.
Proof.
  intros Hv. unfold Query.
  replace ((ge <=? v) && (v <=? le)) with false; [done|].
  symmetry. apply andb_false_iff. rewrite !Z.leb_gt. lia.
Qed.

(** ** Dicts *)

Lemma filter_drops_id (d : dict) :
  filter (λ kv : string * pyval, kv.1 ∉ ["_id"]) d = delete "_id" d.
Proof.
  apply map_eq; intros k. apply option_eq; intros v.
  rewrite map_lookup_filter_Some, lookup_delete_Some; simpl.
  rewrite list_elem_of_singleton. intuition congruence.
Qed.

Lemma exposed_id_cases (d : dict) :
  exposed_id d = VNone ∨ ∃ s, exposed_id d = VStr s.
Proof. unfold exposed_id. destruct (truthy _); eauto. Qed.

Lemma Optional_str_exposed_id (d : dict) :
  Optional str_type (exposed_id d) = Some (exposed_id d).
Proof. destruct (exposed_id_cases d) as [-> | [s ->]]; reflexivity. Qed.

Lemma d_copy_of_lookup_id (d : dict) : d_copy_of d !! "id" = Some (exposed_id d).
Proof. unfold d_copy_of. apply lookup_insert_eq. Qed.

Lemma d_copy_of_lookup_ne (d : dict) (k : string) :
  k ≠ "id" → k ≠ "_id" → d_copy_of d !! k = d !! k.
Proof.
  intros Hid H_id. unfold d_copy_of.
  rewrite lookup_insert_ne by done. by rewrite lookup_delete_ne.
Qed.

(** ** Validation of the fields of a model *)

Lemma validate_fields_cons n fi fs data :
  validate_fields ((n, fi) :: fs) data =
    match field_value data n fi with
    | Some v => ((validate_fields fs data).1, <[n := v]> (validate_fields fs data).2)
    | None =>
        ((n, if data !! n is Some _ then Invalid else Missing) :: (validate_fields fs data).1,
         (validate_fields fs data).2)
    end.
Proof.
  simpl. unfold field_value. destruct (validate_fields fs data) as [errors values].
  destruct (data !! n) as [v|]; simpl.
  - by destruct (fi_validate fi v).
  - by destruct (fi_default fi).
Qed.

Lemma validate_fields_errors fs data :
  (validate_fields fs data).1 = [] ↔
  Forall (λ f, is_Some (field_value data f.1 f.2)) fs.
Proof.
  induction fs as [|[n fi] fs IH].
  - simpl. split; [constructor | done].
  - rewrite validate_fields_cons, Forall_cons. simpl.
    destruct (field_value data n fi) as [v|]; simpl.
    + rewrite IH. split; [eauto | tauto].
    + split; [done | intros [[? ?] _]; done].
Qed.

Lemma validate_fields_lookup_None fs data (k : string) :
  k ∉ fs.*1 → (validate_fields fs data).2 !! k = None.
Proof.
  induction fs as [|[n fi] fs IH]; intros Hk.
  - apply lookup_empty.
  - rewrite fmap_cons, not_elem_of_cons in Hk. destruct Hk as [Hne Hk]. simpl in Hne.
    rewrite validate_fields_cons.
    destruct (field_value data n fi); simpl; [rewrite lookup_insert_ne by done|]; auto.
Qed.

Lemma validate_fields_lookup fs data (n : string) fi v :
  NoDup fs.*1 → (n, fi) ∈ fs → field_value data n fi = Some v →
  (validate_fields fs data).2 !! n = Some v.
Proof.
  induction fs as [|[m x] fs IH]; intros Hnd Hin Hv.
  - by apply not_elem_of_nil in Hin.
  - rewrite fmap_cons in Hnd. apply NoDup_cons in Hnd as [Hm Hnd]. simpl in Hm.
    rewrite validate_fields_cons.
    apply elem_of_cons in Hin as [Heq | Hin].
    + injection Heq as -> ->. rewrite Hv. simpl. apply lookup_insert_eq.
    + assert (m ≠ n) as Hne.
      { intros ->. apply Hm. apply list_elem_of_fmap. by exists (n, fi). }
      destruct (field_value data m x); simpl;
        [rewrite lookup_insert_ne by done|]; auto.
Qed.

Lemma field_value_ext (data data' : dict) (n : string) fi :
  data !! n = data' !! n → field_value data n fi = field_value data' n fi.
Proof. unfold field_value. by intros ->. Qed.

Section Models.
Context {pydantic : Pydantic}.

Lemma BaseModel_init_Returns s data o :
  BaseModel_init s data = Returns o ↔ validate_fields (fields s) data = ([], o).
Proof.
  unfold BaseModel_init. destruct (validate_fields _ _) as [[|err errors] values].
  - split; intros Heq; by simplify_eq.
  - split; intros Heq; by simplify_eq.
Qed.

Lemma BaseModel_init_total s data :
  Forall (λ f, is_Some (field_value data f.1 f.2)) (fields s) →
  BaseModel_init s data = Returns (validate_fields (fields s) data).2.
Proof.
  intros Hall. apply validate_fields_errors in Hall.
  apply BaseModel_init_Returns. destruct (validate_fields _ _); simpl in *.
  by subst.
Qed.

Lemma revalidates_of_stable s :
  NoDup (field_names s) → Forall (λ f, field_stable f.2) (fields s) →
  revalidates s.
Proof.
  intros Hnd Hstable data p Hinit. apply BaseModel_init_Returns in Hinit.
  eexists. apply BaseModel_init_total.
  assert (Forall (λ f, is_Some (field_value data f.1 f.2)) (fields s)) as Hok.
  { apply validate_fields_errors. by rewrite Hinit. }
  rewrite Forall_forall in Hok, Hstable. apply Forall_forall.
  intros [n fi] Hin. simpl.
  destruct (Hok _ Hin) as [v Hv]. simpl in Hv.
  destruct (Hstable _ Hin) as [Hvalue Hdefault]. simpl in *.
  assert (p !! n = Some v) as Hp.
  { replace p with (validate_fields (fields s) data).2 by (by rewrite Hinit).
    by apply (validate_fields_lookup _ _ n fi v). }
  unfold field_value in *. rewrite Hp.
  destruct (data !! n) as [w|]; eauto.
Qed.

End Models.

(** ** Subclassing *)

Lemma override_names fs (n : string) fi (k : string) :
  k ∈ (override fs n fi).*1 ↔ k = n ∨ k ∈ fs.*1.
Proof.
  induction fs as [|[m x] fs IH]; simpl.
  - rewrite list_elem_of_singleton, elem_of_nil. tauto.
  - destruct (decide (m = n)) as [->|Hne]; simpl; rewrite !elem_of_cons.
    + tauto.
    + rewrite IH. tauto.
Qed.

Lemma override_has fs (n : string) fi : (n, fi) ∈ override fs n fi.
Proof.
  induction fs as [|[m x] fs IH]; simpl.
  - by apply list_elem_of_singleton.
  - destruct (decide (m = n)) as [->|Hne]; rewrite elem_of_cons; auto.
Qed.

Lemma override_keeps fs (n : string) fi (m : string) x :
  m ≠ n → (m, x) ∈ fs → (m, x) ∈ override fs n fi.
Proof.
  intros Hne. induction fs as [|[k y] fs IH]; simpl.
  - by rewrite elem_of_nil.
  - rewrite elem_of_cons. intros [Heq | Hin].
    + injection Heq as <- <-. destruct (decide (m = n)); [done|].
      rewrite elem_of_cons; auto.
    + destruct (decide (k = n)); rewrite elem_of_cons; auto.
Qed.

Lemma NoDup_override fs (n : string) fi :
  NoDup fs.*1 → NoDup (override fs n fi).*1.
Proof.
  induction fs as [|[m x] fs IH]; simpl; intros Hnd.
  - apply NoDup_singleton.
  - apply NoDup_cons in Hnd as [Hm Hnd].
    destruct (decide (m = n)) as [->|Hne]; simpl; apply NoDup_cons.
    + done.
    + split; [|auto]. rewrite override_names. intros [? | ?]; done.
Qed.

Lemma NoDup_fst_unique {A} (l : list (string * A)) (k : string) (y1 y2 : A) :
  NoDup l.*1 → (k, y1) ∈ l → (k, y2) ∈ l → y1 = y2.
Proof.
  induction l as [|[m x] l IH]; simpl; intros Hnd H1 H2.
  - by apply elem_of_nil in H1.
  - apply NoDup_cons in Hnd as [Hm Hnd].
    assert (∀ y, (m, y) ∈ l → False) as Hfresh.
    { intros y Hy. apply Hm. apply list_elem_of_fmap. by exists (m, y). }
    apply elem_of_cons in H1 as [E1 | H1]; apply elem_of_cons in H2 as [E2 | H2].
    + congruence.
    + injection E1 as -> ->. by destruct (Hfresh y2).
    + injection E2 as -> ->. by destruct (Hfresh y1).
    + auto.
Qed.

Lemma elem_of_override fs (n : string) fi (m : string) x :
  NoDup fs.*1 → (m, x) ∈ override fs n fi →
  (m = n ∧ x = fi) ∨ (m ≠ n ∧ (m, x) ∈ fs).
Proof.
  intros Hnd Hin. destruct (decide (m = n)) as [->|Hne].
  - left. split; [done|].
    eapply NoDup_fst_unique; [apply NoDup_override, Hnd | exact Hin | apply override_has].
  - right. split; [done|].
    clear Hnd. induction fs as [|[k y] fs IH]; simpl in Hin.
    + apply list_elem_of_singleton in Hin. congruence.
    + destruct (decide (k = n)) as [->|Hkn];
        apply elem_of_cons in Hin as [Heq | Hin]; rewrite elem_of_cons; auto.
      congruence.
Qed.

Lemma schema_wf_NoDup s : schema_wf s = true → NoDup (field_names s).
Proof.
  unfold schema_wf. intros Hwf. apply andb_prop in Hwf as [_ Hnd].
  by apply bool_decide_eq_true in Hnd.
Qed.

Lemma schema_wf_no_underscore_id s : schema_wf s = true → "_id" ∉ field_names s.
Proof.
  unfold schema_wf. intros Hwf Hin. apply andb_prop in Hwf as [Hnames _].
  rewrite forallb_forall in Hnames. apply list_elem_of_In in Hin.
  by apply Hnames in Hin.
Qed.

(** ** The models the list handlers return *)

Section Out.
Context {pydantic : Pydantic}.
Variables (base : Schema) (cls : string).
Hypothesis base_wf : schema_wf base = true.

#[local] Abbreviation Out :=
  (subclass base cls "id" (with_default (Optional str_type) VNone)).

Lemma Out_field_id (d : dict) :
  field_value (d_copy_of d) "id" (with_default (Optional str_type) VNone)
  = Some (exposed_id d).
Proof.
  unfold field_value. rewrite d_copy_of_lookup_id. simpl.
  apply Optional_str_exposed_id.
Qed.

(** An instance has the shaped identifier under [id] and nothing under
    [_id]. *)
Lemma Out_init_id (d o : dict) :
  BaseModel_init Out (d_copy_of d) = Returns o →
  o !! "id" = Some (exposed_id d) ∧ o !! "_id" = None.
Proof.
  intros Hinit. apply BaseModel_init_Returns in Hinit.
  pose proof (schema_wf_NoDup _ base_wf) as Hnd.
  replace o with (validate_fields (fields Out) (d_copy_of d)).2 by (by rewrite Hinit).
  split.
  - eapply validate_fields_lookup; [by apply NoDup_override | apply override_has |].
    apply Out_field_id.
  - apply validate_fields_lookup_None. simpl. rewrite override_names.
    intros [? | Hin]; [done|]. by apply (schema_wf_no_underscore_id _ base_wf).
Qed.

(** A document that validates against the base model validates, once
    shaped, against the subclass: the instance is the base instance with
    the shaped identifier under [id]. *)
Lemma Out_init_of_base (d p : dict) :
  BaseModel_init base d = Returns p →
  BaseModel_init Out (d_copy_of d) = Returns (<["id" := exposed_id d]> p).
Proof.
  intros Hbase. apply BaseModel_init_Returns in Hbase.
  pose proof (schema_wf_NoDup _ base_wf) as Hnd.
  pose proof (schema_wf_no_underscore_id _ base_wf) as H_id.
  assert (Forall (λ f, is_Some (field_value d f.1 f.2)) (fields base)) as Hok.
  { apply validate_fields_errors. by rewrite Hbase. }
  assert (∀ n fi, (n, fi) ∈ fields base → n ≠ "id" →
            field_value (d_copy_of d) n fi = field_value d n fi) as Hsame.
  { intros n fi Hin Hne. apply field_value_ext, d_copy_of_lookup_ne; [done|].
    intros ->. apply H_id. apply list_elem_of_fmap. by exists ("_id", fi). }
  rewrite BaseModel_init_total.
  - f_equal. apply map_eq; intros k.
    destruct (decide (k = "id")) as [->|Hk].
    + rewrite lookup_insert_eq.
      eapply validate_fields_lookup; [by apply NoDup_override | apply override_has |].
      apply Out_field_id.
    + rewrite lookup_insert_ne by done.
      replace p with (validate_fields (fields base) d).2 by (by rewrite Hbase).
      destruct (decide (k ∈ (fields base).*1)) as [Hin | Hnin].
      * apply list_elem_of_fmap in Hin as [[n fi] [-> Hin]]. simpl in *.
        rewrite Forall_forall in Hok. destruct (Hok _ Hin) as [v Hv]. simpl in Hv.
        rewrite (validate_fields_lookup _ _ _ _ v Hnd Hin Hv).
        eapply validate_fields_lookup; [by apply NoDup_override | by apply override_keeps |].
        by rewrite Hsame.
      * rewrite (validate_fields_lookup_None _ d k Hnin).
        apply validate_fields_lookup_None. simpl. rewrite override_names.
        intros [? | ?]; done.
  - apply Forall_forall. intros [n fi] Hin. simpl.
    apply (elem_of_override _ _ _ _ _ Hnd) in Hin as [[-> ->] | [Hne Hin]].
    + rewrite Out_field_id. eauto.
    + rewrite Hsame by done. rewrite Forall_forall in Hok. apply (Hok _ Hin).
Qed.

End Out.

(** ** The handlers in terms of the storage outcome *)

Section HandlerFacts.
Context {pydantic : Pydantic} {schemas : Schemas} {S : Type} {storage : Storage S}.

Lemma for_items_shape (Out : Schema) (docs : list dict) (acc : list dict) (s : S) :
  for_items docs
    (λ d out,
       let d_copy : dict := filter (λ kv, kv.1 ∉ ["_id"]) d in
       let d_copy :=
         <["id" := if truthy (dict_get d "_id")
                   then VStr (py_str (dict_get d "_id")) else VNone]> d_copy in
       let* o := py_call (BaseModel_init Out d_copy) in
       py_ret (out ++ [o]))%py acc s
  = (match shape_all Out docs with
     | Returns out => Returns (acc ++ out)
     | Raises e => Raises e
     end, s).
Proof.
  revert acc. induction docs as [|d docs IH]; intros acc; simpl.
  - unfold py_ret. by rewrite app_nil_r.
  - unfold py_bind at 1. unfold py_bind at 1. unfold py_call, py_ret.
    rewrite filter_drops_id. fold (exposed_id d). fold (d_copy_of d).
    destruct (BaseModel_init Out (d_copy_of d)) as [o|e]; [|done].
    rewrite IH. destruct (shape_all Out docs) as [out|e]; [|done].
    by rewrite <- app_assoc.
Qed.

Lemma list_handler_eq (k : document_kind) (limit : Z) (s : S) :
  list_handler k limit s =
    (list_result (Out_of k) (get_documents (collection k) ∅ limit s).1,
     (get_documents (collection k) ∅ limit s).2).
Proof.
  destruct k; simpl; unfold list_inquiries, list_applications;
    unfold py_try, py_bind at 1, for_in, py_bind at 1;
    destruct (get_documents _ ∅ limit s) as [[docs|e] s']; simpl; try done;
    rewrite for_items_shape; simpl;
    (destruct (shape_all _ (items docs)) as [out|e]; [|done]);
    destruct (failure docs); done.
Qed.

Lemma create_handler_eq (k : document_kind) (instance : dict) (s : S) :
  create_handler k instance s =
    (match (create_document (collection k) instance s).1 with
     | Returns new_id =>
         Returns {[ "id" := VStr new_id; "message" := VStr (message_of k) ]}
     | Raises e => Raises (HTTPException 500 (exn_str e))
     end, (create_document (collection k) instance s).2).
Proof.
  destruct k; simpl; unfold create_inquiry, create_application;
    unfold py_try, py_bind;
    destruct (create_document _ instance s) as [[new_id|e] s']; done.
Qed.

Lemma list_endpoint_eq (k : document_kind) (limit : option Z) (s : S) :
  list_endpoint k limit s = list_route (list_handler k) limit s.
Proof. by destruct k. Qed.

Lemma create_endpoint_eq (k : document_kind) (request_body : dict) (s : S) :
  create_endpoint k request_body s =
    post_route (model_of k)
      (match k with
       | inquiry => InquiryCreateResponse
       | application => ApplicationCreateResponse
       end) (create_handler k) request_body s.
Proof. by destruct k. Qed.

End HandlerFacts.

(** ** The create endpoints *)

Section Create.
Context {pydantic : Pydantic} {schemas : Schemas} {S : Type} {storage : Storage S}.

Lemma CreateResponse_init (k : document_kind) (new_id : string) :
  BaseModel_init
    (match k with
     | inquiry => InquiryCreateResponse
     | application => ApplicationCreateResponse
     end) {[ "id" := VStr new_id; "message" := VStr (message_of k) ]}
  = Returns {[ "id" := VStr new_id; "message" := VStr (message_of k) ]}.
Proof.
  apply BaseModel_init_Returns.
  assert (validate_fields
            [("id", required str_type); ("message", required str_type)]
            {[ "id" := VStr new_id; "message" := VStr (message_of k) ]}
          = ([], {[ "id" := VStr new_id; "message" := VStr (message_of k) ]}))
    as Heq.
  { rewrite !validate_fields_cons. unfold field_value.
    rewrite lookup_insert_eq. rewrite lookup_insert_ne by done.
    rewrite lookup_singleton_eq. simpl. by rewrite insert_empty. }
  by destruct k.
Qed.

(** C5. A POST whose body validates and whose insert succeeds is answered
    with status 200 and exactly the object of two fields: [id], the
    identifier [create_document] returned, and [message], the fixed text
    of the endpoint. *)
Theorem create_returns_id_and_message
    (k : document_kind) (request_body instance : dict) (new_id : string)
    (s s' : S) :
  BaseModel_init (model_of k) request_body = Returns instance →
  create_document (collection k) instance s = (Returns new_id, s') →
  create_endpoint k request_body s =
    ({| status := 200;
        body := JObject {[ "id" := VStr new_id;
                           "message" := VStr (message_of k) ]} |}, s').
Proof.
  intros Hbody Hcreate. rewrite create_endpoint_eq. unfold post_route.
  rewrite Hbody, create_handler_eq, Hcreate. simpl.
  by rewrite CreateResponse_init.
Qed.

End Create.

(** ** Storage failures *)

Section Failures.
Context {pydantic : Pydantic} {schemas : Schemas} {S : Type} {storage : Storage S}.

Lemma list_handler_contained (k : document_kind) (limit : Z) (s : S) :
  contained (list_handler k limit s).1.
Proof.
  rewrite list_handler_eq. simpl.
  destruct (get_documents _ _ _ _).1 as [docs|e]; simpl; [|done].
  destruct (shape_all _ _); [|done]. by destruct (failure docs).
Qed.

Lemma create_handler_contained (k : document_kind) (instance : dict) (s : S) :
  contained (create_handler k instance s).1.
Proof.
  rewrite create_handler_eq. simpl. by destruct (create_document _ _ _).1.
Qed.

(** C3. When the storage operation of a create or list handler raises
    [e], be it at the call or while the documents are iterated, the
    handler raises HTTPException 500 with [str(e)] as detail and FastAPI
    answers with status 500 and that detail; and whatever the storage
    does, a handler either returns or raises an HTTPException 500. *)
Theorem storage_exception_is_500 (k : document_kind) :
  (∀ request_body instance e (s s' : S),
     BaseModel_init (model_of k) request_body = Returns instance →
     create_document (collection k) instance s = (Raises e, s') →
     create_handler k instance s = (Raises (HTTPException 500 (exn_str e)), s') ∧
     create_endpoint k request_body s = (error_response 500 (exn_str e), s')) ∧
  (∀ limit lim e (s s' : S),
     Query 20 1 100 limit = Some lim →
     get_documents (collection k) ∅ lim s = (Raises e, s') →
     list_handler k lim s = (Raises (HTTPException 500 (exn_str e)), s') ∧
     list_endpoint k limit s = (error_response 500 (exn_str e), s')) ∧
  (∀ limit lim docs out e (s s' : S),
     Query 20 1 100 limit = Some lim →
     get_documents (collection k) ∅ lim s = (Returns docs, s') →
     shape_all (Out_of k) (items docs) = Returns out →
     failure docs = Some e →
     list_handler k lim s = (Raises (HTTPException 500 (exn_str e)), s') ∧
     list_endpoint k limit s = (error_response 500 (exn_str e), s')) ∧
  (∀ instance (s : S), contained (create_handler k instance s).1) ∧
  (∀ lim (s : S), contained (list_handler k lim s).1).
Proof.
  split; [|split; [|split; [|split]]].
  - intros request_body instance e s s' Hbody Hraise.
    rewrite create_endpoint_eq. unfold post_route.
    rewrite Hbody, create_handler_eq, Hraise. done.
  - intros limit lim e s s' Hlim Hraise.
    rewrite list_endpoint_eq. unfold list_route.
    rewrite Hlim, list_handler_eq, Hraise. done.
  - intros limit lim docs out e s s' Hlim Hdocs Hout Hfail.
    rewrite list_endpoint_eq. unfold list_route.
    rewrite Hlim, list_handler_eq, Hdocs. simpl. rewrite Hout, Hfail. done.
  - apply create_handler_contained.
  - apply list_handler_contained.
Qed.

End Failures.

(** ** The limit parameter and the empty listing *)

Section Listing.
Context {pydantic : Pydantic} {schemas : Schemas} {S : Type} {storage : Storage S}.

(** C4. A [limit] below 1 or above 100 is answered with status 422 and
    the storage is left as it was; without [limit] the endpoint does what
    it does for 20; and an accepted [limit] is the one [get_documents]
    is called with, on the collection of the kind and the empty filter. *)
Theorem limit_validated_before_handler (k : document_kind) (s : S) :
  (∀ v, v < 1 ∨ 100 < v →
     list_endpoint k (Some v) s = (unprocessable [("query", "limit")], s)) ∧
  list_endpoint k None s = list_endpoint k (Some 20) s ∧
  (∀ v, 1 ≤ v ≤ 100 →
     list_endpoint k (Some v) s =
       (respond (λ out, Returns (JArray out))
          (list_result (Out_of k) (get_documents (collection k) ∅ v s).1),
        (get_documents (collection k) ∅ v s).2)).
Proof.
  split; [|split].
  - intros v Hv. rewrite list_endpoint_eq. unfold list_route.
    by rewrite Query_out_of_range.
  - by rewrite !list_endpoint_eq.
  - intros v Hv. rewrite list_endpoint_eq. unfold list_route.
    by rewrite Query_in_range, list_handler_eq.
Qed.

(** C6. When [get_documents] returns no document, the list endpoint
    answers with status 200 and the empty array. *)
Theorem empty_collection_lists_empty
    (k : document_kind) (limit : option Z) (lim : Z) (s s' : S) :
  Query 20 1 100 limit = Some lim →
  get_documents (collection k) ∅ lim s
    = (Returns {| items := []; failure := None |}, s') →
  list_endpoint k limit s = ({| status := 200; body := JArray [] |}, s').
Proof.
  intros Hlim Hdocs. rewrite list_endpoint_eq. unfold list_route.
  rewrite Hlim, list_handler_eq, Hdocs. done.
Qed.

End Listing.

(** ** The identifier of a listed document *)

Section Shaping.
Context {pydantic : Pydantic} {schemas : Schemas} {S : Type} {storage : Storage S}.

Lemma shape_all_Forall2 (Out : Schema) (docs out : list dict) :
  shape_all Out docs = Returns out ↔
  Forall2 (λ d o, BaseModel_init Out (d_copy_of d) = Returns o) docs out.
Proof.
  revert out. induction docs as [|d docs IH]; intros out; simpl.
  - split.
    + intros [= <-]. constructor.
    + intros Hall. by inversion Hall.
  - destruct (BaseModel_init Out (d_copy_of d)) as [o|e] eqn:Hd.
    + destruct (shape_all Out docs) as [out'|e].
      * split.
        -- intros [= <-]. constructor; [done | by apply IH].
        -- intros Hall. inversion Hall as [|? o' ? out'' Ho Hrest]; subst.
           apply IH in Hrest. congruence.
      * split; [done|].
        intros Hall. inversion Hall as [|? o' ? out'' Ho Hrest]; subst.
        by apply IH in Hrest.
    + split; [done|]. intros Hall. inversion Hall; congruence.
Qed.

Lemma Out_of_subclass (k : document_kind) :
  ∃ cls, Out_of k =
    subclass (model_of k) cls "id" (with_default (Optional str_type) VNone).
Proof. destruct k; eexists; reflexivity. Qed.

(** A 200 of a list endpoint comes from an accepted limit, a storage
    call that returned and was iterated to its end, and documents that
    all validated. *)
Lemma list_endpoint_200 (k : document_kind) (limit : option Z) (s s' : S)
    (out : list dict) :
  list_endpoint k limit s = ({| status := 200; body := JArray out |}, s') →
  ∃ lim docs,
    Query 20 1 100 limit = Some lim ∧
    get_documents (collection k) ∅ lim s = (Returns docs, s') ∧
    failure docs = None ∧
    shape_all (Out_of k) (items docs) = Returns out.
Proof.
  rewrite list_endpoint_eq. unfold list_route.
  destruct (Query 20 1 100 limit) as [lim|]; [|done].
  rewrite list_handler_eq.
  destruct (get_documents (collection k) ∅ lim s) as [[docs|e] s''] eqn:Hdocs;
    simpl; [|done].
  destruct (shape_all (Out_of k) (items docs)) as [out'|e] eqn:Hout; simpl; [|done].
  destruct (failure docs) as [e|] eqn:Hfail; simpl; [done|].
  intros [= -> ->]. by exists lim, docs.
Qed.

(** The converse, from documents that validate against the base model. *)
Lemma list_endpoint_valid_docs (k : document_kind) (limit : option Z) (lim : Z)
    (s s' : S) (docs : cursor) :
  schema_wf (model_of k) = true →
  Query 20 1 100 limit = Some lim →
  get_documents (collection k) ∅ lim s = (Returns docs, s') →
  failure docs = None →
  Forall (λ d, ∃ p, BaseModel_init (model_of k) d = Returns p) (items docs) →
  ∃ out,
    list_endpoint k limit s = ({| status := 200; body := JArray out |}, s') ∧
    Forall2 (λ d o, ∃ p, BaseModel_init (model_of k) d = Returns p ∧
                         o = <["id" := exposed_id d]> p) (items docs) out.
Proof.
  intros Hwf Hlim Hdocs Hfail Hvalid.
  destruct (Out_of_subclass k) as [cls HOut].
  assert (∃ out, shape_all (Out_of k) (items docs) = Returns out ∧
            Forall2 (λ d o, ∃ p, BaseModel_init (model_of k) d = Returns p ∧
                                 o = <["id" := exposed_id d]> p) (items docs) out)
    as (out & Hout & Hall).
  { induction Hvalid as [|d ds [p Hp] _ (out & Hout & Hall)]; simpl.
    - exists []. split; [done | constructor].
    - exists (<["id" := exposed_id d]> p :: out).
      rewrite HOut, (Out_init_of_base _ _ Hwf d p Hp), <- HOut, Hout.
      split; [done|]. constructor; [by exists p | done]. }
  exists out. split; [|done].
  rewrite list_endpoint_eq. unfold list_route.
  rewrite Hlim, list_handler_eq, Hdocs. simpl. rewrite Hout, Hfail. done.
Qed.

(** C2. Every object in the answer of a list endpoint has no [_id]
    field, and stands for a document of the storage whose identifier it
    carries under [id] as a string: [str] of the ObjectId the database
    assigned (of any truthy [_id], in fact). *)
Theorem listed_documents_expose_id
    (k : document_kind) (limit : option Z) (lim : Z) (s s' s'' : S)
    (docs : cursor) (out : list dict) :
  schema_wf (model_of k) = true →
  Query 20 1 100 limit = Some lim →
  get_documents (collection k) ∅ lim s = (Returns docs, s') →
  list_endpoint k limit s = ({| status := 200; body := JArray out |}, s'') →
  Forall2 (λ d o,
      o !! "_id" = None ∧
      (∀ oid, d !! "_id" = Some (VObjectId oid) →
              o !! "id" = Some (VStr (str_ObjectId oid))) ∧
      (∀ v, d !! "_id" = Some v → truthy v = true →
            o !! "id" = Some (VStr (py_str v))))
    (items docs) out.
Proof.
  intros Hwf Hlim Hdocs Hresp.
  apply list_endpoint_200 in Hresp as (lim' & docs' & Hlim' & Hdocs' & _ & Hout).
  rewrite Hlim in Hlim'. injection Hlim' as <-.
  rewrite Hdocs in Hdocs'. injection Hdocs' as <- <-.
  apply shape_all_Forall2 in Hout.
  destruct (Out_of_subclass k) as [cls HOut]. rewrite HOut in Hout.
  eapply Forall2_impl; [exact Hout|]. simpl. intros d o Ho.
  destruct (Out_init_id _ _ Hwf d o Ho) as [Hid H_id].
  split; [done|].
  assert (∀ v, d !! "_id" = Some v → truthy v = true →
               o !! "id" = Some (VStr (py_str v))) as Hgen.
  { intros v Hv Ht. rewrite Hid. unfold exposed_id, dict_get.
    rewrite Hv. simpl. by rewrite Ht. }
  split; [|done]. intros oid Hoid. by apply (Hgen _ Hoid).
Qed.

(** C10. A stored document without [_id], or with a falsy one, is listed
    all the same, with None under [id]: given documents that validate
    against the model of their kind, the answer is a 200 whose array has
    one object per document, in order. *)
Theorem missing_or_falsy_id_lists_None
    (k : document_kind) (limit : option Z) (lim : Z) (s s' : S) (docs : cursor) :
  schema_wf (model_of k) = true →
  Query 20 1 100 limit = Some lim →
  get_documents (collection k) ∅ lim s = (Returns docs, s') →
  failure docs = None →
  Forall (λ d, ∃ p, BaseModel_init (model_of k) d = Returns p) (items docs) →
  ∃ out,
    list_endpoint k limit s = ({| status := 200; body := JArray out |}, s') ∧
    Forall2 (λ d o,
        d !! "_id" = None ∨ (∃ v, d !! "_id" = Some v ∧ truthy v = false) →
        o !! "id" = Some VNone)
      (items docs) out.
Proof.
  intros Hwf Hlim Hdocs Hfail Hvalid.
  destruct (list_endpoint_valid_docs k limit lim s s' docs Hwf Hlim Hdocs Hfail Hvalid)
    as (out & Hresp & Hall).
  exists out. split; [done|].
  eapply Forall2_impl; [exact Hall|]. simpl.
  intros d o (p & _ & ->) Hfalsy. rewrite lookup_insert_eq. f_equal.
  unfold exposed_id, dict_get.
  destruct Hfalsy as [-> | (v & -> & Hv)]; simpl; [done | by rewrite Hv].
Qed.

(** C8. The string under [id] is a function of the [_id] of the stored
    document alone: two listings, of whatever states and limits, expose
    the same [id] for documents with the same [_id]. *)
Theorem exposed_id_stable
    (k : document_kind) (limit1 limit2 : option Z) (lim1 lim2 : Z)
    (s1 s1' s1'' s2 s2' s2'' : S) (docs1 docs2 : cursor) (out1 out2 : list dict)
    (i j : nat) (d1 d2 : dict) :
  schema_wf (model_of k) = true →
  Query 20 1 100 limit1 = Some lim1 →
  get_documents (collection k) ∅ lim1 s1 = (Returns docs1, s1') →
  list_endpoint k limit1 s1 = ({| status := 200; body := JArray out1 |}, s1'') →
  Query 20 1 100 limit2 = Some lim2 →
  get_documents (collection k) ∅ lim2 s2 = (Returns docs2, s2') →
  list_endpoint k limit2 s2 = ({| status := 200; body := JArray out2 |}, s2'') →
  items docs1 !! i = Some d1 →
  items docs2 !! j = Some d2 →
  d1 !! "_id" = d2 !! "_id" →
  ∃ o1 o2,
    out1 !! i = Some o1 ∧ out2 !! j = Some o2 ∧
    o1 !! "id" = o2 !! "id" ∧ o1 !! "id" = Some (exposed_id d1).
Proof.
  intros Hwf Hlim1 Hdocs1 Hresp1 Hlim2 Hdocs2 Hresp2 Hd1 Hd2 Hsame.
  assert (∀ limit lim s s' s'' docs out n d,
    Query 20 1 100 limit = Some lim →
    get_documents (collection k) ∅ lim s = (Returns docs, s') →
    list_endpoint k limit s = ({| status := 200; body := JArray out |}, s'') →
    items docs !! n = Some d →
    ∃ o, out !! n = Some o ∧ o !! "id" = Some (exposed_id d)) as Hone.
  { intros limit lim s s' s'' docs out n d Hlim Hdocs Hresp Hd.
    apply list_endpoint_200 in Hresp as (lim' & docs' & Hlim' & Hdocs' & _ & Hout).
    rewrite Hlim in Hlim'. injection Hlim' as <-.
    rewrite Hdocs in Hdocs'. injection Hdocs' as <- <-.
    apply shape_all_Forall2 in Hout.
    destruct (Forall2_lookup_l _ _ _ _ _ Hout Hd) as (o & Ho & Hinit).
    exists o. split; [done|].
    destruct (Out_of_subclass k) as [cls HOut]. rewrite HOut in Hinit.
    by destruct (Out_init_id _ _ Hwf d o Hinit). }
  destruct (Hone _ _ _ _ _ _ _ _ _ Hlim1 Hdocs1 Hresp1 Hd1) as (o1 & Ho1 & Hid1).
  destruct (Hone _ _ _ _ _ _ _ _ _ Hlim2 Hdocs2 Hresp2 Hd2) as (o2 & Ho2 & Hid2).
  exists o1, o2. repeat split; try done.
  rewrite Hid1, Hid2. f_equal. unfold exposed_id, dict_get. by rewrite Hsame.
Qed.

End Shaping.

(** ** The diagnostic endpoint *)

(** C9. [test_database] returns for every handle and environment. The
    answer tells whether each of the two variables is set (to a
    non-empty value), lists at most 10 collections, and reports the
    handle: absent; present and listing its collections; present and
    failing to list them; present and failing already when [db.name] is
    read. *)
Theorem test_database_never_raises
    (db : option Database) (getenv : string → option string) :
  ∃ r,
    test_database db getenv = Returns r ∧
    backend r = "✅ Running" ∧
    (length (collections r) ≤ 10)%nat ∧
    database_url r =
      Some (if env_truthy (getenv "DATABASE_URL") then "✅ Set" else "❌ Not Set") ∧
    database_name r =
      Some (if env_truthy (getenv "DATABASE_NAME") then "✅ Set" else "❌ Not Set") ∧
    match db with
    | None =>
        database r = "⚠️  Available but not initialized" ∧
        connection_status r = "Not Connected" ∧
        collections r = []
    | Some h =>
        (name_readable h →
         connection_status r = "Connected" ∧
         match list_collection_names h with
         | Returns names =>
             database r = "✅ Connected & Working" ∧
             collections r = take 10 names
         | Raises e =>
             database r = "⚠️  Connected but Error: " +:+ str_prefix 50 (exn_str e) ∧
             collections r = []
         end) ∧
        (∀ e, name h = Raises e → ¬ name_readable h →
           database r = "❌ Error: " +:+ str_prefix 50 (exn_str e) ∧
           connection_status r = "Not Connected" ∧
           collections r = [])
    end.
Proof.
  assert (∀ names : list string, (length (take 10 names) ≤ 10)%nat) as Hlen.
  { intros names. rewrite length_take. lia. }
  unfold test_database, name_readable, hasattr, py_try, py_bind, py_call, py_ret.
  destruct db as [[nm lc]|]; simpl.
  - destruct nm as [n|[cls msg|sc dt]]; simpl;
      [ | destruct (decide (cls = "AttributeError")) as [->|Hcls]; simpl | ];
      destruct lc as [names|e]; simpl;
      (eexists; split; [reflexivity|]); simpl; repeat split;
      auto with lia; try done; intros; simplify_eq; done.
  - eexists. split; [reflexivity|]. simpl. repeat split; auto with lia.
Qed.

(** ** Identifiers as strings *)

Lemma hex_digit_inj (a b : N) :
  (a < 16)%N → (b < 16)%N → hex_digit a = hex_digit b → a = b.
Proof.
  intros Ha Hb.
  assert (a = 0 ∨ a = 1 ∨ a = 2 ∨ a = 3 ∨ a = 4 ∨ a = 5 ∨ a = 6 ∨ a = 7 ∨
          a = 8 ∨ a = 9 ∨ a = 10 ∨ a = 11 ∨ a = 12 ∨ a = 13 ∨ a = 14 ∨ a = 15)%N
    as Hcases_a by lia.
  assert (b = 0 ∨ b = 1 ∨ b = 2 ∨ b = 3 ∨ b = 4 ∨ b = 5 ∨ b = 6 ∨ b = 7 ∨
          b = 8 ∨ b = 9 ∨ b = 10 ∨ b = 11 ∨ b = 12 ∨ b = 13 ∨ b = 14 ∨ b = 15)%N
    as Hcases_b by lia.
  clear Ha Hb.
  repeat (destruct Hcases_a as [-> | Hcases_a]);
    repeat (destruct Hcases_b as [-> | Hcases_b]);
    subst; simpl; intros Heq; first [reflexivity | discriminate Heq].
Qed.

Lemma hex_digits_length (k : nat) (n : N) (acc : string) :
  String.length (hex_digits k n acc) = (k + String.length acc)%nat.
Proof.
  revert n acc. induction k as [|k IH]; intros n acc; simpl; [done|].
  rewrite IH. simpl. lia.
Qed.

Lemma hex_digits_inj (k : nat) (n n' : N) (acc acc' : string) :
  String.length acc = String.length acc' →
  hex_digits k n acc = hex_digits k n' acc' →
  (n mod 16 ^ N.of_nat k = n' mod 16 ^ N.of_nat k)%N ∧ acc = acc'.
Proof.
  revert n n' acc acc'. induction k as [|k IH]; intros n n' acc acc' Hlen Heq.
  - simpl in *. by rewrite !N.mod_1_r.
  - simpl in Heq. apply IH in Heq as [Hhigh Hacc]; [|simpl; congruence].
    injection Hacc as Hdigit ->. split; [|done].
    apply hex_digit_inj in Hdigit; [|by apply N.mod_lt..].
    rewrite Nat2N.inj_succ, N.pow_succ_r'.
    rewrite !N.Div0.mod_mul_r. by rewrite Hdigit, Hhigh.
Qed.

Lemma str_ObjectId_inj (a b : N) :
  str_ObjectId a = str_ObjectId b → (a mod 2 ^ 96 = b mod 2 ^ 96)%N.
Proof.
  unfold str_ObjectId. intros Heq.
  apply hex_digits_inj in Heq as [Heq _]; [|done].
  exact Heq.
Qed.

Lemma str_ObjectId_nonempty (oid : N) : str_ObjectId oid ≠ "".
Proof.
  intros Heq. pose proof (hex_digits_length 24 oid "") as Hlen.
  unfold str_ObjectId in Heq. rewrite Heq in Hlen. simpl in Hlen. lia.
Qed.

Lemma succ_mod_neq (x : N) : (x mod 2 ^ 96 ≠ ((x + 1) mod 2 ^ 96) mod 2 ^ 96)%N.
Proof.
  rewrite N.Div0.mod_mod.
  set (M := (2 ^ 96)%N). assert (1 < M)%N as HM by (subst M; reflexivity).
  pose proof (N.Div0.div_mod x M) as Hx.
  pose proof (N.mod_lt x M ltac:(lia)) as Hr.
  destruct (decide (x mod M + 1 < M)%N) as [Hlt | Hge].
  - rewrite <- (N.Div0.add_mod_idemp_l x 1 M).
    rewrite (N.mod_small (x mod M + 1) M Hlt). lia.
  - assert (x mod M + 1 = M)%N as Htop by lia.
    rewrite <- (N.Div0.add_mod_idemp_l x 1 M), Htop, N.Div0.mod_same. lia.
Qed.

(** ** The document store *)

Lemma matches_empty (d : dict) : matches ∅ d = true.
Proof. unfold matches. apply bool_decide_eq_true. apply map_Forall_empty. Qed.

Lemma filter_matches_empty (l : list dict) : List.filter (matches ∅) l = l.
Proof.
  induction l as [|d l IH]; simpl; [done|]. by rewrite matches_empty, IH.
Qed.

(** C7. On an available store, two inserts of the same payload in a row
    both succeed, and return two different identifier strings. *)
Theorem consecutive_inserts_distinct_ids
    (kind : string) (payload : dict) (m : Mongo) :
  unavailable m = None →
  ∃ id1 m1 id2 m2,
    Mongo_create_document kind payload m = (Returns id1, m1) ∧
    Mongo_create_document kind payload m1 = (Returns id2, m2) ∧
    id1 ≠ id2.
Proof.
  intros Hup. unfold Mongo_create_document. rewrite Hup. simpl.
  do 4 eexists. split; [reflexivity|]. split; [reflexivity|].
  intros Heq. apply str_ObjectId_inj in Heq. by apply succ_mod_neq in Heq.
Qed.

Section Store.
Context {pydantic : Pydantic} {schemas : Schemas}.
#[local] Existing Instance Mongo_Storage.

Lemma BaseModel_init_ext (s : Schema) (data data' : dict) :
  (∀ n, n ∈ field_names s → data !! n = data' !! n) →
  BaseModel_init s data = BaseModel_init s data'.
Proof.
  intros Hsame. unfold BaseModel_init.
  replace (validate_fields (fields s) data')
    with (validate_fields (fields s) data); [done|].
  unfold field_names in Hsame. induction (fields s) as [|[n fi] fs IH]; [done|].
  rewrite !validate_fields_cons.
  rewrite IH by (intros k Hk; apply Hsame; rewrite fmap_cons; by right).
  rewrite (field_value_ext data data' n fi), (Hsame n); [done | | ];
    [rewrite fmap_cons; by left | apply Hsame; rewrite fmap_cons; by left].
Qed.

(** A stored payload validates as the payload did. *)
Lemma BaseModel_init_stored (s : Schema) (payload : dict) (oid : N) :
  schema_wf s = true →
  BaseModel_init s (<["_id" := VObjectId oid]> payload) = BaseModel_init s payload.
Proof.
  intros Hwf. apply BaseModel_init_ext. intros n Hn.
  apply lookup_insert_ne. intros <-. by apply (schema_wf_no_underscore_id s Hwf).
Qed.

Lemma Mongo_get_documents_all (kind : string) (limit : Z) (m : Mongo) :
  unavailable m = None →
  Z.of_nat (length (stored m !!! kind)) ≤ limit →
  get_documents kind ∅ limit m
    = (Returns {| items := stored m !!! kind; failure := None |}, m).
Proof.
  intros Hup Hlimit. simpl. unfold Mongo_get_documents. rewrite Hup.
  rewrite filter_matches_empty, take_ge by lia. done.
Qed.

(** C1, amended. On an available store, the POST of a body that validates
    is answered with a non-empty [id]. When the instance the model makes
    of the body validates to itself, a GET whose limit exceeds the number
    of documents stored before is then answered with a sequence provided
    the documents stored before validate, and every sequence it is
    answered with has an object with that [id] whose other fields are
    those of the instance: of the body itself when the model returns the
    body unchanged. *)
Theorem post_then_list_includes
    (k : document_kind) (request_body instance : dict) (limit : Z) (m : Mongo) :
  schema_wf (model_of k) = true →
  BaseModel_init (model_of k) request_body = Returns instance →
  BaseModel_init (model_of k) instance = Returns instance →
  unavailable m = None →
  1 ≤ limit ≤ 100 →
  Z.of_nat (length (stored m !!! collection k)) < limit →
  ∃ new_id m',
    create_endpoint k request_body m =
      ({| status := 200;
          body := JObject {[ "id" := VStr new_id;
                             "message" := VStr (message_of k) ]} |}, m') ∧
    new_id ≠ "" ∧
    (Forall (λ d, ∃ p, BaseModel_init (model_of k) d = Returns p)
       (stored m !!! collection k) →
     ∃ out, list_endpoint k (Some limit) m'
            = ({| status := 200; body := JArray out |}, m')) ∧
    (∀ out m'',
       list_endpoint k (Some limit) m'
         = ({| status := 200; body := JArray out |}, m'') →
       ∃ o, o ∈ out ∧ delete "id" o = delete "id" instance ∧
            o !! "id" = Some (VStr new_id)).
Proof.
  intros Hwf Hbody Hstable Hup Hlimit Hroom.
  set (oid := next_oid m).
  set (doc := <["_id" := VObjectId oid]> instance).
  set (m' := {| unavailable := None;
                next_oid := ((oid + 1) mod 2 ^ 96)%N;
                stored := <[collection k := (stored m !!! collection k) ++ [doc]]>
                            (stored m) |}).
  assert (create_document (collection k) instance m
          = (Returns (str_ObjectId oid), m')) as Hcreate.
  { simpl. unfold Mongo_create_document. by rewrite Hup. }
  assert (Query 20 1 100 (Some limit) = Some limit) as Hquery
    by (by apply Query_in_range).
  assert (get_documents (collection k) ∅ limit m'
          = (Returns {| items := (stored m !!! collection k) ++ [doc];
                        failure := None |}, m')) as Hget.
  { rewrite Mongo_get_documents_all; simpl; rewrite ?lookup_total_insert_eq; try done.
    rewrite length_app. simpl. lia. }
  assert (BaseModel_init (model_of k) doc = Returns instance) as Hdoc.
  { subst doc. by rewrite BaseModel_init_stored. }
  assert (exposed_id doc = VStr (str_ObjectId oid)) as Hid.
  { unfold exposed_id, dict_get. subst doc. by rewrite lookup_insert_eq. }
  exists (str_ObjectId oid), m'. split; [|split; [|split]].
  - rewrite create_endpoint_eq. unfold post_route.
    rewrite Hbody, create_handler_eq, Hcreate. simpl.
    by rewrite CreateResponse_init.
  - apply str_ObjectId_nonempty.
  - intros Hold.
    destruct (list_endpoint_valid_docs k (Some limit) limit m' m' _ Hwf Hquery Hget)
      as (out & Hout & _); [done | | by exists out].
    simpl. apply Forall_app. split; [done|].
    apply Forall_singleton. by exists instance.
  - intros out m'' Hresp.
    apply list_endpoint_200 in Hresp as (lim & docs & Hlim & Hdocs & _ & Hout).
    rewrite Hquery in Hlim. injection Hlim as <-.
    rewrite Hget in Hdocs. injection Hdocs as <- <-. simpl in Hout.
    apply shape_all_Forall2 in Hout.
    apply Forall2_app_inv_l in Hout as (out1 & out2 & _ & Hlast & ->).
    inversion Hlast as [|? o ? out3 Ho Hnil]; subst. inversion Hnil; subst.
    destruct (Out_of_subclass k) as [cls HOut]. rewrite HOut in Ho.
    rewrite (Out_init_of_base _ _ Hwf doc instance Hdoc), Hid in Ho.
    injection Ho as <-.
    exists (<["id" := VStr (str_ObjectId oid)]> instance).
    split; [|split].
    + apply elem_of_app. right. by apply list_elem_of_singleton.
    + apply delete_insert_eq.
    + apply lookup_insert_eq.
Qed.

(** *** The store under the API *)

Lemma collection_inj (k k' : document_kind) : collection k = collection k' → k = k'.
Proof. by destruct k, k'. Qed.

Lemma list_endpoint_state (k : document_kind) (limit : option Z) (m : Mongo) :
  (list_endpoint k limit m).2 = m.
Proof.
  rewrite list_endpoint_eq. unfold list_route.
  destruct (Query 20 1 100 limit) as [lim|]; [|done].
  rewrite list_handler_eq. simpl. unfold Mongo_get_documents.
  by destruct (unavailable m).
Qed.

Lemma create_endpoint_state (k : document_kind) (request_body : dict) (m : Mongo) :
  (create_endpoint k request_body m).2 = m ∨
  ∃ instance,
    BaseModel_init (model_of k) request_body = Returns instance ∧
    (create_endpoint k request_body m).2 =
      {| unavailable := None;
         next_oid := ((next_oid m + 1) mod 2 ^ 96)%N;
         stored := <[collection k :=
                       (stored m !!! collection k)
                         ++ [ <["_id" := VObjectId (next_oid m)]> instance ]]>
                     (stored m) |}.
Proof.
  rewrite create_endpoint_eq. unfold post_route.
  destruct (BaseModel_init (model_of k) request_body) as [instance|e]; [|by left].
  rewrite create_handler_eq. simpl. unfold Mongo_create_document.
  destruct (unavailable m); [by left|]. right. by exists instance.
Qed.

Section Invariant.
Hypothesis models_wf : ∀ k, schema_wf (model_of k) = true.
Hypothesis models_revalidate : ∀ k, revalidates (model_of k).

Lemma api_step_store_valid (m m' : Mongo) :
  api_step m m' → store_valid m → store_valid m'.
Proof.
  intros Hstep Hvalid. destruct Hstep as [k request_body m | k limit m | e m].
  - destruct (create_endpoint_state k request_body m) as [-> | (instance & Hbody & ->)];
      [done|].
    intros k'. simpl. destruct (decide (k = k')) as [<- | Hne].
    + rewrite lookup_total_insert_eq. apply Forall_app. split; [apply Hvalid|].
      apply Forall_singleton. rewrite BaseModel_init_stored by apply models_wf.
      apply (models_revalidate k _ _ Hbody).
    + rewrite lookup_total_insert_ne; [apply Hvalid|].
      intros Heq. by apply collection_inj in Heq.
  - by rewrite list_endpoint_state.
  - exact Hvalid.
Qed.

(** Whatever requests were served since the store was empty, the stored
    documents validate. *)
Lemma reachable_store_valid (m : Mongo) :
  rtc api_step Mongo_empty m → store_valid m.
Proof.
  intros Hreach. pattern m. revert m Hreach. apply rtc_ind_r.
  - intros k. simpl. rewrite lookup_total_empty. constructor.
  - intros m0 m _ Hstep IH. by apply (api_step_store_valid m0 m).
Qed.

End Invariant.

End Store.

(** ** The theorems at work on the instances *)

Section Instances.
#[local] Existing Instance example_Pydantic.
#[local] Existing Instance example_Schemas.

Lemma example_Schemas_wf (k : document_kind) : schema_wf (model_of k) = true.
Proof. by destruct k. Qed.

Lemma str_type_stable : field_stable (required str_type).
Proof.
  split; [|done]. intros [] v' [= <-]. by eexists.
Qed.

Lemma Optional_str_stable : field_stable (with_default (Optional str_type) VNone).
Proof.
  split.
  - intros [] v' [= <-]; by eexists.
  - intros dv [= <-]. by eexists.
Qed.

Lemma example_Schemas_revalidate (k : document_kind) : revalidates (model_of k).
Proof.
  apply revalidates_of_stable; [apply schema_wf_NoDup, example_Schemas_wf|].
  destruct k; simpl; repeat constructor;
    first [apply str_type_stable | apply Optional_str_stable].
Qed.

(** The endpoints at work: a POST on the empty store, then two listings. *)
Example post_on_empty_store :
  create_endpoint (storage := Mongo_Storage) inquiry example_inquiry Mongo_empty
  = ({| status := 200;
        body := JObject
          {[ "id" := VStr "000000000000000000000000";
             "message" := VStr "Inquiry received. Our team will contact you shortly." ]} |},
     Mongo_one).
Proof. vm_compute. reflexivity. Qed.

Example list_after_two_posts :
  list_endpoint (storage := Mongo_Storage) inquiry None Mongo_two
  = ({| status := 200;
        body := JArray
          [ <["id" := VStr "000000000000000000000000"]> example_inquiry;
            <["id" := VStr "000000000000000000000001"]> example_inquiry ] |},
     Mongo_two).
Proof. vm_compute. reflexivity. Qed.

Example list_legacy_documents :
  list_endpoint (storage := Mongo_Storage) inquiry (Some 2) Mongo_legacy
  = ({| status := 200;
        body := JArray [ <["id" := VNone]> example_inquiry;
                         <["id" := VNone]> example_inquiry ] |},
     Mongo_legacy).
Proof. vm_compute. reflexivity. Qed.

Example post_application :
  (create_endpoint (storage := Mongo_Storage) application
     {[ "name" := VStr "A"; "email" := VStr "a@x.com"; "position" := VStr "clerk" ]}
     Mongo_one).2
  = {| unavailable := None; next_oid := 2;
       stored := {[ "inquiry" := [ <["_id" := VObjectId 0]> example_inquiry ];
                    "application" :=
                      [ <["_id" := VObjectId 1]> example_application ] ]} |}.
Proof. vm_compute. reflexivity. Qed.

Example post_incomplete_body :
  create_endpoint (storage := Mongo_Storage) inquiry {[ "name" := VStr "A" ]} Mongo_empty
  = (unprocessable [("body", "email"); ("body", "message")], Mongo_empty).
Proof. vm_compute. reflexivity. Qed.

Example list_invalid_document :
  (list_endpoint (storage := Mongo_Storage) inquiry None
     {| unavailable := None; next_oid := 1;
        stored := {[ "inquiry" := [ {[ "_id" := VObjectId 0; "name" := VStr "A" ]} ] ]} |}).1
  = error_response 500 "validation error for InquiryOut".
Proof. vm_compute. reflexivity. Qed.

Example test_database_without_handle :
  test_database None (λ _, None)
  = Returns {| backend := "✅ Running";
               database := "⚠️  Available but not initialized";
               database_url := Some "❌ Not Set";
               database_name := Some "❌ Not Set";
               connection_status := "Not Connected";
               collections := [] |}.
Proof. reflexivity. Qed.

Example test_database_listing_fails :
  test_database
    (Some {| name := Returns "illuminati";
             list_collection_names := Raises (Exception "OperationFailure" "not authorized") |})
    (λ k, if decide (k = "DATABASE_URL") then Some "mongodb://db" else Some "")
  = Returns {| backend := "✅ Running";
               database := "⚠️  Connected but Error: not authorized";
               database_url := Some "✅ Set";
               database_name := Some "❌ Not Set";
               connection_status := "Connected";
               collections := [] |}.
Proof. reflexivity. Qed.

Lemma create_returns_id_and_message_witness :
  BaseModel_init (model_of inquiry) example_inquiry = Returns example_inquiry ∧
  create_document (Storage := Mongo_Storage) (collection inquiry) example_inquiry
      Mongo_empty
    = (Returns "000000000000000000000000", Mongo_one) ∧
  create_endpoint (storage := Mongo_Storage) inquiry example_inquiry Mongo_empty =
    ({| status := 200;
        body := JObject
          {[ "id" := VStr "000000000000000000000000";
             "message" := VStr "Inquiry received. Our team will contact you shortly." ]} |},
     Mongo_one).
Proof.
  assert (BaseModel_init (model_of inquiry) example_inquiry = Returns example_inquiry)
    as Hbody by reflexivity.
  assert (create_document (Storage := Mongo_Storage) (collection inquiry)
            example_inquiry Mongo_empty
          = (Returns "000000000000000000000000", Mongo_one))
    as Hcreate by reflexivity.
  split; [exact Hbody|]. split; [exact Hcreate|].
  exact (create_returns_id_and_message (storage := Mongo_Storage) inquiry
           example_inquiry example_inquiry "000000000000000000000000"
           Mongo_empty Mongo_one Hbody Hcreate).
Defined.

Lemma post_then_list_includes_witness :
  schema_wf (model_of application) = true ∧
  BaseModel_init (model_of application) application_without_letter
    = Returns example_application ∧
  BaseModel_init (model_of application) example_application
    = Returns example_application ∧
  unavailable Mongo_one = None ∧
  1 ≤ 20 ≤ 100 ∧
  Z.of_nat (length (stored Mongo_one !!! collection application)) < 20 ∧
  ∃ new_id m',
    create_endpoint (storage := Mongo_Storage) application
        application_without_letter Mongo_one =
      ({| status := 200;
          body := JObject {[ "id" := VStr new_id;
                             "message" := VStr (message_of application) ]} |}, m') ∧
    new_id ≠ "" ∧
    (Forall (λ d, ∃ p, BaseModel_init (model_of application) d = Returns p)
       (stored Mongo_one !!! collection application) →
     ∃ out, list_endpoint (storage := Mongo_Storage) application (Some 20) m'
            = ({| status := 200; body := JArray out |}, m')) ∧
    (∀ out m'',
       list_endpoint (storage := Mongo_Storage) application (Some 20) m'
         = ({| status := 200; body := JArray out |}, m'') →
       ∃ o, o ∈ out ∧ delete "id" o = delete "id" example_application ∧
            o !! "id" = Some (VStr new_id)).
Proof.
  assert (schema_wf (model_of application) = true) as Hwf by reflexivity.
  assert (BaseModel_init (model_of application) application_without_letter
          = Returns example_application) as Hbody by reflexivity.
  assert (BaseModel_init (model_of application) example_application
          = Returns example_application) as Hstable by reflexivity.
  assert (unavailable Mongo_one = None) as Hup by reflexivity.
  assert (1 ≤ 20 ≤ 100) as Hlimit by lia.
  assert (Z.of_nat (length (stored Mongo_one !!! collection application)) < 20)
    as Hroom by (vm_compute; reflexivity).
  repeat (split; [assumption|]).
  exact (post_then_list_includes application application_without_letter
           example_application 20 Mongo_one Hwf Hbody Hstable Hup Hlimit Hroom).
Defined.

(** C1 as the spec states it fails in four ways. The model drops a key it
    does not declare and fills in a field left out, so the listed object
    is not the submitted payload; a default that its own field refuses,
    or a stored document that never validated, turns the GET into a 500.
    Each POST below is answered 200 and the limit of the GET exceeds the
    number of documents. *)
Lemma post_then_list_misses_payload :
  (status (create_endpoint (storage := Mongo_Storage) inquiry
             inquiry_with_source Mongo_empty).1 = 200 ∧
   ¬ lists_payload
       (list_endpoint (storage := Mongo_Storage) inquiry (Some 20)
          (create_endpoint (storage := Mongo_Storage) inquiry
             inquiry_with_source Mongo_empty).2).1
       inquiry_with_source) ∧
  (status (create_endpoint (storage := Mongo_Storage) application
             application_without_letter Mongo_empty).1 = 200 ∧
   ¬ lists_payload
       (list_endpoint (storage := Mongo_Storage) application (Some 20)
          (create_endpoint (storage := Mongo_Storage) application
             application_without_letter Mongo_empty).2).1
       application_without_letter) ∧
  (status (create_endpoint (schemas := defaulted_Schemas) (storage := Mongo_Storage)
             inquiry {[ "name" := VStr "A" ]} Mongo_empty).1 = 200 ∧
   ¬ lists_payload
       (list_endpoint (schemas := defaulted_Schemas) (storage := Mongo_Storage)
          inquiry (Some 20)
          (create_endpoint (schemas := defaulted_Schemas) (storage := Mongo_Storage)
             inquiry {[ "name" := VStr "A" ]} Mongo_empty).2).1
       {[ "name" := VStr "A" ]}) ∧
  (status (create_endpoint (storage := Mongo_Storage) inquiry
             example_inquiry Mongo_broken).1 = 200 ∧
   ¬ lists_payload
       (list_endpoint (storage := Mongo_Storage) inquiry (Some 20)
          (create_endpoint (storage := Mongo_Storage) inquiry
             example_inquiry Mongo_broken).2).1
       example_inquiry).
Proof.
  split; [|split; [|split]].
  - split; [reflexivity|].
    assert ((list_endpoint (storage := Mongo_Storage) inquiry (Some 20)
               (create_endpoint (storage := Mongo_Storage) inquiry
                  inquiry_with_source Mongo_empty).2).1
            = {| status := 200;
                 body := JArray [ <["id" := VStr "000000000000000000000000"]>
                                    example_inquiry ] |}) as ->
      by (vm_compute; reflexivity).
    intros (out & o & id & [= <-] & Ho & Hfields & _).
    apply list_elem_of_singleton in Ho as ->.
    apply (f_equal (λ d : dict, d !! "source")) in Hfields.
    vm_compute in Hfields. discriminate Hfields.
  - split; [reflexivity|].
    assert ((list_endpoint (storage := Mongo_Storage) application (Some 20)
               (create_endpoint (storage := Mongo_Storage) application
                  application_without_letter Mongo_empty).2).1
            = {| status := 200;
                 body := JArray [ <["id" := VStr "000000000000000000000000"]>
                                    example_application ] |}) as ->
      by (vm_compute; reflexivity).
    intros (out & o & id & [= <-] & Ho & Hfields & _).
    apply list_elem_of_singleton in Ho as ->.
    apply (f_equal (λ d : dict, d !! "cover_letter")) in Hfields.
    vm_compute in Hfields. discriminate Hfields.
  - split; [reflexivity|].
    assert (status
              (list_endpoint (schemas := defaulted_Schemas) (storage := Mongo_Storage)
                 inquiry (Some 20)
                 (create_endpoint (schemas := defaulted_Schemas)
                    (storage := Mongo_Storage) inquiry {[ "name" := VStr "A" ]}
                    Mongo_empty).2).1 = 500) as Hstatus
      by (vm_compute; reflexivity).
    intros (out & o & id & Hr & _). rewrite Hr in Hstatus. discriminate Hstatus.
  - split; [reflexivity|].
    assert (status
              (list_endpoint (storage := Mongo_Storage) inquiry (Some 20)
                 (create_endpoint (storage := Mongo_Storage) inquiry
                    example_inquiry Mongo_broken).2).1 = 500) as Hstatus
      by (vm_compute; reflexivity).
    intros (out & o & id & Hr & _). rewrite Hr in Hstatus. discriminate Hstatus.
Qed.

Lemma listed_documents_expose_id_witness :
  schema_wf (model_of inquiry) = true ∧
  Query 20 1 100 (Some 20) = Some 20 ∧
  get_documents (Storage := Mongo_Storage) (collection inquiry) ∅ 20 Mongo_one
    = (Returns {| items := [ <["_id" := VObjectId 0]> example_inquiry ];
                  failure := None |}, Mongo_one) ∧
  list_endpoint (storage := Mongo_Storage) inquiry (Some 20) Mongo_one
    = ({| status := 200;
          body := JArray [ <["id" := VStr "000000000000000000000000"]>
                             example_inquiry ] |}, Mongo_one) ∧
  Forall2 (λ d o,
      o !! "_id" = None ∧
      (∀ oid, d !! "_id" = Some (VObjectId oid) →
              o !! "id" = Some (VStr (str_ObjectId oid))) ∧
      (∀ v, d !! "_id" = Some v → truthy v = true →
            o !! "id" = Some (VStr (py_str v))))
    [ <["_id" := VObjectId 0]> example_inquiry ]
    [ <["id" := VStr "000000000000000000000000"]> example_inquiry ].
Proof.
  assert (schema_wf (model_of inquiry) = true) as Hwf by reflexivity.
  assert (Query 20 1 100 (Some 20) = Some 20) as Hlim by reflexivity.
  assert (get_documents (Storage := Mongo_Storage) (collection inquiry) ∅ 20 Mongo_one
          = (Returns {| items := [ <["_id" := VObjectId 0]> example_inquiry ];
                        failure := None |}, Mongo_one))
    as Hdocs by reflexivity.
  assert (list_endpoint (storage := Mongo_Storage) inquiry (Some 20) Mongo_one
          = ({| status := 200;
                body := JArray [ <["id" := VStr "000000000000000000000000"]>
                                   example_inquiry ] |}, Mongo_one))
    as Hresp by (vm_compute; reflexivity).
  repeat (split; [assumption|]).
  exact (listed_documents_expose_id (storage := Mongo_Storage) inquiry (Some 20) 20
           Mongo_one Mongo_one Mongo_one _ _ Hwf Hlim Hdocs Hresp).
Defined.

Lemma storage_exception_is_500_witness :
  (BaseModel_init (model_of inquiry) example_inquiry = Returns example_inquiry ∧
   create_document (Storage := Mongo_Storage) (collection inquiry) example_inquiry
       Mongo_down
     = (Raises (Exception "ServerSelectionTimeoutError" "no servers"), Mongo_down) ∧
   create_endpoint (storage := Mongo_Storage) inquiry example_inquiry Mongo_down
     = (error_response 500 "no servers", Mongo_down)) ∧
  (Query 20 1 100 None = Some 20 ∧
   get_documents (Storage := Mongo_Storage) (collection inquiry) ∅ 20 Mongo_down
     = (Raises (Exception "ServerSelectionTimeoutError" "no servers"), Mongo_down) ∧
   list_endpoint (storage := Mongo_Storage) inquiry None Mongo_down
     = (error_response 500 "no servers", Mongo_down)) ∧
  (get_documents (Storage := Flaky_Storage) (collection inquiry) ∅ 20 tt
     = (Returns {| items := [];
                   failure := Some (Exception "CursorNotFound" "cursor lost") |}, tt) ∧
   list_endpoint (storage := Flaky_Storage) inquiry None tt
     = (error_response 500 "cursor lost", tt)).
Proof.
  destruct (storage_exception_is_500 (storage := Mongo_Storage) inquiry)
    as (Hcreate & Hlist & _).
  destruct (storage_exception_is_500 (storage := Flaky_Storage) inquiry)
    as (_ & _ & Hiter & _).
  split; [|split].
  - assert (BaseModel_init (model_of inquiry) example_inquiry = Returns example_inquiry)
      as Hbody by reflexivity.
    assert (create_document (Storage := Mongo_Storage) (collection inquiry)
              example_inquiry Mongo_down
            = (Raises (Exception "ServerSelectionTimeoutError" "no servers"),
               Mongo_down)) as Hraise by reflexivity.
    repeat (split; [assumption|]).
    exact (proj2 (Hcreate _ _ _ _ _ Hbody Hraise)).
  - assert (Query 20 1 100 None = Some 20) as Hlim by reflexivity.
    assert (get_documents (Storage := Mongo_Storage) (collection inquiry) ∅ 20
              Mongo_down
            = (Raises (Exception "ServerSelectionTimeoutError" "no servers"),
               Mongo_down)) as Hraise by reflexivity.
    repeat (split; [assumption|]).
    exact (proj2 (Hlist _ _ _ _ _ Hlim Hraise)).
  - assert (get_documents (Storage := Flaky_Storage) (collection inquiry) ∅ 20 tt
            = (Returns {| items := [];
                          failure := Some (Exception "CursorNotFound" "cursor lost") |},
               tt)) as Hdocs by reflexivity.
    split; [assumption|].
    exact (proj2 (Hiter None 20 _ [] _ tt tt eq_refl Hdocs eq_refl eq_refl)).
Defined.

Lemma limit_validated_before_handler_witness :
  ((0 < 1 ∨ 100 < 0) ∧
   list_endpoint (storage := Recorder_Storage) inquiry (Some 0) []
     = (unprocessable [("query", "limit")], [])) ∧
  ((101 < 1 ∨ 100 < 101) ∧
   list_endpoint (storage := Recorder_Storage) application (Some 101) []
     = (unprocessable [("query", "limit")], [])) ∧
  (list_endpoint (storage := Recorder_Storage) inquiry None []).2
    = [GetDocuments "inquiry" ∅ 20] ∧
  (1 ≤ 100 ≤ 100 ∧
   (list_endpoint (storage := Recorder_Storage) application (Some 100) []).2
     = [GetDocuments "application" ∅ 100]).
Proof.
  destruct (limit_validated_before_handler (storage := Recorder_Storage) inquiry [])
    as (Hlow & Hdefault & Hin).
  destruct (limit_validated_before_handler (storage := Recorder_Storage) application [])
    as (Hhigh & _ & Hin').
  split; [|split; [|split]].
  - assert (0 < 1 ∨ 100 < 0) as Hv by lia. split; [exact Hv | exact (Hlow 0 Hv)].
  - assert (101 < 1 ∨ 100 < 101) as Hv by lia.
    split; [exact Hv | exact (Hhigh 101 Hv)].
  - rewrite Hdefault. rewrite (Hin 20) by lia. reflexivity.
  - assert (1 ≤ 100 ≤ 100) as Hv by lia. split; [exact Hv|].
    rewrite (Hin' 100 Hv). reflexivity.
Defined.

Lemma empty_collection_lists_empty_witness :
  Query 20 1 100 None = Some 20 ∧
  get_documents (Storage := Mongo_Storage) (collection application) ∅ 20 Mongo_one
    = (Returns {| items := []; failure := None |}, Mongo_one) ∧
  list_endpoint (storage := Mongo_Storage) application None Mongo_one
    = ({| status := 200; body := JArray [] |}, Mongo_one).
Proof.
  assert (Query 20 1 100 None = Some 20) as Hlim by reflexivity.
  assert (get_documents (Storage := Mongo_Storage) (collection application) ∅ 20
            Mongo_one
          = (Returns {| items := []; failure := None |}, Mongo_one))
    as Hdocs by reflexivity.
  repeat (split; [assumption|]).
  exact (empty_collection_lists_empty (storage := Mongo_Storage) application None 20
           Mongo_one Mongo_one Hlim Hdocs).
Defined.

Lemma consecutive_inserts_distinct_ids_witness :
  unavailable Mongo_empty = None ∧
  ∃ id1 m1 id2 m2,
    Mongo_create_document "inquiry" example_inquiry Mongo_empty = (Returns id1, m1) ∧
    Mongo_create_document "inquiry" example_inquiry m1 = (Returns id2, m2) ∧
    id1 ≠ id2.
Proof.
  split; [reflexivity|].
  exact (consecutive_inserts_distinct_ids "inquiry" example_inquiry Mongo_empty
           eq_refl).
Defined.

Lemma exposed_id_stable_witness :
  schema_wf (model_of inquiry) = true ∧
  Query 20 1 100 None = Some 20 ∧
  get_documents (Storage := Mongo_Storage) (collection inquiry) ∅ 20 Mongo_one
    = (Returns {| items := [ <["_id" := VObjectId 0]> example_inquiry ];
                  failure := None |}, Mongo_one) ∧
  list_endpoint (storage := Mongo_Storage) inquiry None Mongo_one
    = ({| status := 200;
          body := JArray [ <["id" := VStr "000000000000000000000000"]>
                             example_inquiry ] |}, Mongo_one) ∧
  Query 20 1 100 (Some 1) = Some 1 ∧
  get_documents (Storage := Mongo_Storage) (collection inquiry) ∅ 1 Mongo_two
    = (Returns {| items := [ <["_id" := VObjectId 0]> example_inquiry ];
                  failure := None |}, Mongo_two) ∧
  list_endpoint (storage := Mongo_Storage) inquiry (Some 1) Mongo_two
    = ({| status := 200;
          body := JArray [ <["id" := VStr "000000000000000000000000"]>
                             example_inquiry ] |}, Mongo_two) ∧
  ∃ o1 o2,
    [ <["id" := VStr "000000000000000000000000"]> example_inquiry ] !! 0%nat = Some o1 ∧
    [ <["id" := VStr "000000000000000000000000"]> example_inquiry ] !! 0%nat = Some o2 ∧
    o1 !! "id" = o2 !! "id" ∧
    o1 !! "id" = Some (exposed_id (<["_id" := VObjectId 0]> example_inquiry)).
Proof.
  assert (schema_wf (model_of inquiry) = true) as Hwf by reflexivity.
  assert (Query 20 1 100 None = Some 20) as Hlim1 by reflexivity.
  assert (get_documents (Storage := Mongo_Storage) (collection inquiry) ∅ 20 Mongo_one
          = (Returns {| items := [ <["_id" := VObjectId 0]> example_inquiry ];
                        failure := None |}, Mongo_one))
    as Hdocs1 by reflexivity.
  assert (list_endpoint (storage := Mongo_Storage) inquiry None Mongo_one
          = ({| status := 200;
                body := JArray [ <["id" := VStr "000000000000000000000000"]>
                                   example_inquiry ] |}, Mongo_one))
    as Hresp1 by (vm_compute; reflexivity).
  assert (Query 20 1 100 (Some 1) = Some 1) as Hlim2 by reflexivity.
  assert (get_documents (Storage := Mongo_Storage) (collection inquiry) ∅ 1 Mongo_two
          = (Returns {| items := [ <["_id" := VObjectId 0]> example_inquiry ];
                        failure := None |}, Mongo_two))
    as Hdocs2 by reflexivity.
  assert (list_endpoint (storage := Mongo_Storage) inquiry (Some 1) Mongo_two
          = ({| status := 200;
                body := JArray [ <["id" := VStr "000000000000000000000000"]>
                                   example_inquiry ] |}, Mongo_two))
    as Hresp2 by (vm_compute; reflexivity).
  repeat (split; [assumption|]).
  exact (exposed_id_stable (storage := Mongo_Storage) inquiry None (Some 1) 20 1
           Mongo_one Mongo_one Mongo_one Mongo_two Mongo_two Mongo_two _ _ _ _
           0%nat 0%nat _ _ Hwf Hlim1 Hdocs1 Hresp1 Hlim2 Hdocs2 Hresp2
           eq_refl eq_refl eq_refl).
Defined.

Lemma test_database_never_raises_witness :
  name_readable example_Database ∧
  ∃ r,
    test_database (Some example_Database) (λ _, None) = Returns r ∧
    (length (collections r) ≤ 10)%nat ∧
    connection_status r = "Connected" ∧
    database r = "✅ Connected & Working" ∧
    database_url r = Some "❌ Not Set".
Proof.
  assert (name_readable example_Database) as Hname by exact I.
  split; [exact Hname|].
  destruct (test_database_never_raises (Some example_Database) (λ _, None))
    as (r & Hr & _ & Hlen & Hurl & _ & Hdb).
  destruct (proj1 Hdb Hname) as (Hconn & Hworking & _).
  exists r. repeat split; assumption.
Defined.

Lemma missing_or_falsy_id_lists_None_witness :
  schema_wf (model_of inquiry) = true ∧
  Query 20 1 100 None = Some 20 ∧
  get_documents (Storage := Mongo_Storage) (collection inquiry) ∅ 20 Mongo_legacy
    = (Returns {| items := [ example_inquiry; <["_id" := VInt 0]> example_inquiry ];
                  failure := None |}, Mongo_legacy) ∧
  Forall (λ d, ∃ p, BaseModel_init (model_of inquiry) d = Returns p)
    [ example_inquiry; <["_id" := VInt 0]> example_inquiry ] ∧
  ∃ out,
    list_endpoint (storage := Mongo_Storage) inquiry None Mongo_legacy
      = ({| status := 200; body := JArray out |}, Mongo_legacy) ∧
    Forall2 (λ d o,
        d !! "_id" = None ∨ (∃ v, d !! "_id" = Some v ∧ truthy v = false) →
        o !! "id" = Some VNone)
      [ example_inquiry; <["_id" := VInt 0]> example_inquiry ] out.
Proof.
  assert (schema_wf (model_of inquiry) = true) as Hwf by reflexivity.
  assert (Query 20 1 100 None = Some 20) as Hlim by reflexivity.
  assert (get_documents (Storage := Mongo_Storage) (collection inquiry) ∅ 20
            Mongo_legacy
          = (Returns {| items := [ example_inquiry;
                                   <["_id" := VInt 0]> example_inquiry ];
                        failure := None |}, Mongo_legacy))
    as Hdocs by reflexivity.
  assert (Forall (λ d, ∃ p, BaseModel_init (model_of inquiry) d = Returns p)
            [ example_inquiry; <["_id" := VInt 0]> example_inquiry ]) as Hvalid.
  { repeat constructor; eexists; vm_compute; reflexivity. }
  repeat (split; [assumption|]).
  exact (missing_or_falsy_id_lists_None (storage := Mongo_Storage) inquiry None 20
           Mongo_legacy Mongo_legacy _ Hwf Hlim Hdocs eq_refl Hvalid).
Defined.

End Instances.

(** * More properties of the handlers *)

(** ** The diagnostic endpoint, field by field *)

Lemma str_prefix_length (n : nat) (s : string) :
  String.length (str_prefix n s) = Nat.min n (String.length s).
Proof.
  revert s. induction n as [|n IH]; intros [|c s]; simpl; try done.
  by rewrite IH.
Qed.

Lemma str_prefix_split (n : nat) (s : string) :
  ∃ rest, s = str_prefix n s +:+ rest ∧
          ((String.length s ≤ n)%nat → rest = "").
Proof.
  revert s. induction n as [|n IH]; intros [|c s]; simpl.
  - by exists "".
  - exists (String c s). split; [done|]. lia.
  - by exists "".
  - destruct (IH s) as (rest & Hs & Hrest). exists rest. split.
    + change (String c s = String c (str_prefix n s +:+ rest)). by f_equal.
    + intros Hlen. apply Hrest. lia.
Qed.

#[local] Arguments str_prefix : simpl never.

Ltac diag_cases db :=
  unfold test_database, hasattr, py_try, py_bind, py_call, py_ret;
  destruct db as [[[?n|[?cls ?msg|?sc ?dt]] [?names|?e]]|]; simpl;
  try (destruct (decide (_ = "AttributeError")) as [->|?Hcls]; simpl);
  (eexists; split; [reflexivity|]); simpl.

(** X1. The values [test_database] starts from or sets on the way never
    reach the answer: [database] is never the initial "Not Available"
    nor the passing "Available", and [database_url] and [database_name]
    are always one of the two texts of the environment check, never
    None, "Configured" or the name read from the handle. *)
Theorem test_database_overwrites_defaults
    (db : option Database) (getenv : string → option string) :
  ∃ r,
    test_database db getenv = Returns r ∧
    database r ≠ "❌ Not Available" ∧
    database r ≠ "✅ Available" ∧
    (database_url r = Some "✅ Set" ∨ database_url r = Some "❌ Not Set") ∧
    (database_name r = Some "✅ Set" ∨ database_name r = Some "❌ Not Set").
Proof.
  diag_cases db;
    (split; [discriminate|]); (split; [discriminate|]);
    split; destruct (env_truthy _); auto.
Qed.

(** X2. The diagnostic is sound and complete in what it reports of the
    handle: "Connected & Working" is reported exactly when a handle is
    present, its name can be read and its collections were listed;
    "Connected" exactly when a handle is present and its name can be
    read; and collections are only ever reported along with "Connected &
    Working". *)
Theorem test_database_reports_faithfully
    (db : option Database) (getenv : string → option string) :
  ∃ r,
    test_database db getenv = Returns r ∧
    (database r = "✅ Connected & Working" ↔
     ∃ h names, db = Some h ∧ name_readable h ∧
                list_collection_names h = Returns names) ∧
    (connection_status r = "Connected" ↔ ∃ h, db = Some h ∧ name_readable h) ∧
    (collections r ≠ [] → database r = "✅ Connected & Working").
Proof.
  unfold name_readable.
  diag_cases db; (split; [|split]); try done;
    try (split; [discriminate|]);
    try (split; [intros _; repeat eexists; simpl; done|done]);
    try (intros (? & ? & [= <-] & ? & ?); simpl in *; done);
    try (intros (? & [= <-] & ?); simpl in *; done);
    try (intros (? & ? & [= <-]); done).
Qed.

(** X3. When a handle is present and reading its name or listing its
    collections raises [e] with an ASCII [str(e)], the answer shows,
    after the label of the branch, exactly the first 50 characters of
    [str(e)]: all of it when it has at most 50, and its prefix of length
    50 otherwise. *)
Theorem test_database_cuts_error_text
    (h : Database) (getenv : string → option string) :
  ∃ r,
    test_database (Some h) getenv = Returns r ∧
    ∀ e,
      is_ascii_text (exn_str e) = true →
      ∃ shown rest,
        exn_str e = shown +:+ rest ∧
        String.length shown = Nat.min 50 (String.length (exn_str e)) ∧
        ((String.length (exn_str e) ≤ 50)%nat → rest = "") ∧
        (name_readable h → list_collection_names h = Raises e →
         database r = "⚠️  Connected but Error: " +:+ shown) ∧
        (¬ name_readable h → name h = Raises e →
         database r = "❌ Error: " +:+ shown).
Proof.
  assert (∀ e,
    ∃ rest,
      exn_str e = str_prefix 50 (exn_str e) +:+ rest ∧
      String.length (str_prefix 50 (exn_str e))
        = Nat.min 50 (String.length (exn_str e)) ∧
      ((String.length (exn_str e) ≤ 50)%nat → rest = "")) as Hcut.
  { intros e. destruct (str_prefix_split 50 (exn_str e)) as (rest & Hs & Hrest).
    exists rest. repeat split; try done. apply str_prefix_length. }
  unfold test_database, name_readable, hasattr, py_try, py_bind, py_call, py_ret.
  destruct h as [[n|[cls msg|sc dt]] [names|e]]; simpl;
    try (destruct (decide (cls = "AttributeError")) as [->|Hcls]; simpl);
    (eexists; split; [reflexivity|]); simpl;
    intros e' _; destruct (Hcut e') as (rest & Hs & Hlen & Hrest);
    exists (str_prefix 50 (exn_str e')), rest;
    (split; [exact Hs|]); (split; [exact Hlen|]); (split; [exact Hrest|]);
    split; intros Hname Hraise; simplify_eq; done.
Qed.


(** ** The objects of a listing *)

Lemma validate_fields_keys fs data (key : string) :
  (validate_fields fs data).1 = [] →
  is_Some ((validate_fields fs data).2 !! key) ↔ key ∈ fs.*1.
Proof.
  induction fs as [|[n fi] fs IH]; intros Herr.
  - simpl. rewrite lookup_empty, elem_of_nil. split; [by intros [? ?] | done].
  - rewrite validate_fields_cons in *. rewrite fmap_cons, elem_of_cons. simpl.
    destruct (field_value data n fi) as [v|]; simpl in *; [|done].
    destruct (decide (key = n)) as [->|Hne].
    + rewrite lookup_insert_eq. split; [by left | by eexists].
    + rewrite lookup_insert_ne by done. rewrite (IH Herr). intuition congruence.
Qed.

Lemma str_int_nonempty (z : Z) : str_int z ≠ "".
Proof.
  unfold str_int, NilZero.string_of_int.
  destruct (Z.to_int z) as [d|d]; [|done].
  unfold NilZero.string_of_uint. by destruct d.
Qed.

Lemma py_str_truthy_nonempty (v : pyval) : truthy v = true → py_str v ≠ "".
Proof.
  destruct v as [|[]|z|s|oid]; simpl; intros Ht; try discriminate Ht;
    first [ done | apply str_int_nonempty | apply str_ObjectId_nonempty
          | by destruct s ].
Qed.

Lemma d_copy_of_ext (d d' : dict) :
  delete "id" d = delete "id" d' → d_copy_of d = d_copy_of d'.
Proof.
  intros Heq.
  assert (∀ k, k ≠ "id" → d !! k = d' !! k) as Hsame.
  { intros k Hk. rewrite <- (lookup_delete_ne d "id" k), <- (lookup_delete_ne d' "id" k)
      by done. by rewrite Heq. }
  assert (exposed_id d = exposed_id d') as Hid.
  { unfold exposed_id, dict_get. by rewrite (Hsame "_id"). }
  unfold d_copy_of. rewrite Hid.
  apply map_eq; intros k. destruct (decide (k = "id")) as [->|Hk].
  - by rewrite !lookup_insert_eq.
  - rewrite !lookup_insert_ne by done.
    destruct (decide (k = "_id")) as [->|Hk'].
    + by rewrite !lookup_delete_eq.
    + rewrite !lookup_delete_ne by done. by apply Hsame.
Qed.

Section Objects.
Context {pydantic : Pydantic} {schemas : Schemas} {S : Type} {storage : Storage S}.

Lemma BaseModel_init_Raises (s : Schema) (data : dict) (e : exn) :
  BaseModel_init s data = Raises e →
  ∃ errors, errors ≠ [] ∧
    e = Exception "ValidationError" (ValidationError_str (title s) errors).
Proof.
  unfold BaseModel_init.
  destruct (validate_fields (fields s) data) as [[|err errors] values]; [done|].
  intros [= <-]. by exists (err :: errors).
Qed.

Lemma shape_all_invalid (Out : Schema) (docs : list dict) (d : dict) :
  d ∈ docs →
  (∀ o, BaseModel_init Out (d_copy_of d) ≠ Returns o) →
  ∃ errors, errors ≠ [] ∧
    shape_all Out docs =
      Raises (Exception "ValidationError" (ValidationError_str (title Out) errors)).
Proof.
  intros Hin Hbad. induction docs as [|d0 docs IH]; [by apply elem_of_nil in Hin|].
  simpl. destruct (BaseModel_init Out (d_copy_of d0)) as [o|e] eqn:Hd0.
  - apply elem_of_cons in Hin as [-> | Hin]; [by destruct (Hbad o)|].
    destruct (IH Hin) as (errors & Hne & ->). by exists errors.
  - apply BaseModel_init_Raises in Hd0 as (errors & Hne & ->). by exists errors.
Qed.

Lemma shape_all_ext (Out : Schema) (docs docs' : list dict) :
  Forall2 (λ d d', delete "id" d = delete "id" d') docs docs' →
  shape_all Out docs = shape_all Out docs'.
Proof.
  induction 1 as [|d d' docs docs' Hd _ IH]; simpl; [done|].
  by rewrite (d_copy_of_ext d d' Hd), IH.
Qed.

Lemma Out_of_keys (k : document_kind) (key : string) :
  key ∈ field_names (Out_of k) ↔ key = "id" ∨ key ∈ field_names (model_of k).
Proof. destruct k; apply override_names. Qed.

(** X5. An object of a listing has exactly the fields of the model of its
    kind, and [id]: whatever else the stored document holds is left out. *)
Theorem listed_objects_have_model_fields
    (k : document_kind) (limit : option Z) (s s' : S) (out : list dict) :
  list_endpoint k limit s = ({| status := 200; body := JArray out |}, s') →
  Forall (λ o, ∀ key, is_Some (o !! key) ↔
                      key = "id" ∨ key ∈ field_names (model_of k)) out.
Proof.
  intros Hresp.
  apply list_endpoint_200 in Hresp as (lim & docs & _ & _ & _ & Hout).
  apply shape_all_Forall2 in Hout.
  apply Forall_forall. intros o Ho.
  apply list_elem_of_lookup in Ho as [i Hi].
  destruct (Forall2_lookup_r _ _ _ _ _ Hout Hi) as (d & _ & Hinit).
  apply BaseModel_init_Returns in Hinit. intros key.
  rewrite <- Out_of_keys.
  replace o with (validate_fields (fields (Out_of k)) (d_copy_of d)).2
    by (by rewrite Hinit).
  apply validate_fields_keys. by rewrite Hinit.
Qed.

(** X6. The [id] of an object of a listing is None or a string that is
    not empty. *)
Theorem listed_id_None_or_nonempty
    (k : document_kind) (limit : option Z) (s s' : S) (out : list dict) :
  schema_wf (model_of k) = true →
  list_endpoint k limit s = ({| status := 200; body := JArray out |}, s') →
  Forall (λ o, o !! "id" = Some VNone ∨
               ∃ id, o !! "id" = Some (VStr id) ∧ id ≠ "") out.
Proof.
  intros Hwf Hresp.
  apply list_endpoint_200 in Hresp as (lim & docs & _ & _ & _ & Hout).
  apply shape_all_Forall2 in Hout.
  apply Forall_forall. intros o Ho.
  apply list_elem_of_lookup in Ho as [i Hi].
  destruct (Forall2_lookup_r _ _ _ _ _ Hout Hi) as (d & _ & Hinit).
  destruct (Out_of_subclass k) as [cls HOut]. rewrite HOut in Hinit.
  destruct (Out_init_id _ _ Hwf d o Hinit) as [-> _].
  unfold exposed_id. destruct (truthy (dict_get d "_id")) eqn:Ht; [right | by left].
  eexists. split; [done|]. by apply py_str_truthy_nonempty.
Qed.

(** X7. One stored document that lacks a required field of its model, or
    holds a value the field refuses, fails the whole listing: the answer
    is a 500 whose detail is the validation error of the Out model, with
    no object of the other documents, whether or not the iteration would
    have failed later. *)
Theorem invalid_document_fails_listing
    (k : document_kind) (limit : option Z) (lim : Z) (s s' : S) (docs : cursor)
    (d : dict) (n : string) (fi : FieldInfo) :
  schema_wf (model_of k) = true →
  Query 20 1 100 limit = Some lim →
  get_documents (collection k) ∅ lim s = (Returns docs, s') →
  d ∈ items docs →
  (n, fi) ∈ fields (model_of k) →
  n ≠ "id" →
  field_value d n fi = None →
  ∃ errors, errors ≠ [] ∧
    list_endpoint k limit s =
      (error_response 500 (ValidationError_str (title (Out_of k)) errors), s').
Proof.
  intros Hwf Hlim Hdocs Hd Hfield Hn Hbad.
  assert (∀ o, BaseModel_init (Out_of k) (d_copy_of d) ≠ Returns o) as Hinvalid.
  { intros o Hinit. apply BaseModel_init_Returns in Hinit.
    assert ((validate_fields (fields (Out_of k)) (d_copy_of d)).1 = []) as Herr
      by (by rewrite Hinit).
    apply validate_fields_errors in Herr. rewrite Forall_forall in Herr.
    assert ((n, fi) ∈ fields (Out_of k)) as Hin
      by (destruct k; by apply override_keeps).
    apply Herr in Hin. simpl in Hin.
    rewrite (field_value_ext (d_copy_of d) d), Hbad in Hin; [by destruct Hin|].
    apply d_copy_of_lookup_ne; [done|]. intros ->.
    apply (schema_wf_no_underscore_id _ Hwf).
    apply list_elem_of_fmap. by exists ("_id", fi). }
  destruct (shape_all_invalid (Out_of k) (items docs) d Hd Hinvalid)
    as (errors & Hne & Hshape).
  exists errors. split; [done|].
  rewrite list_endpoint_eq. unfold list_route.
  rewrite Hlim, list_handler_eq, Hdocs. simpl. by rewrite Hshape.
Qed.

(** X8. A field named [id] in a stored document never shows: documents
    that differ under [id] only are listed alike. *)
Theorem stored_id_field_is_ignored
    (k : document_kind) (limit : option Z) (lim : Z) (s1 s1' s2 s2' : S)
    (docs1 docs2 : cursor) :
  Query 20 1 100 limit = Some lim →
  get_documents (collection k) ∅ lim s1 = (Returns docs1, s1') →
  get_documents (collection k) ∅ lim s2 = (Returns docs2, s2') →
  Forall2 (λ d d', delete "id" d = delete "id" d') (items docs1) (items docs2) →
  failure docs1 = failure docs2 →
  (list_endpoint k limit s1).1 = (list_endpoint k limit s2).1.
Proof.
  intros Hlim Hdocs1 Hdocs2 Hsame Hfail.
  rewrite !list_endpoint_eq. unfold list_route.
  rewrite Hlim, !list_handler_eq, Hdocs1, Hdocs2. simpl.
  by rewrite (shape_all_ext _ _ _ Hsame), Hfail.
Qed.

(** X9. For documents that validate against the model of their kind, the
    listing is the list of their instances, in the order of the storage,
    each with the shaped identifier put under [id]: every other field is
    the validated field of the document. *)
Theorem listing_is_instances_with_id
    (k : document_kind) (limit : option Z) (lim : Z) (s s' : S) (docs : cursor)
    (instances : list dict) :
  schema_wf (model_of k) = true →
  Query 20 1 100 limit = Some lim →
  get_documents (collection k) ∅ lim s = (Returns docs, s') →
  failure docs = None →
  Forall2 (λ d p, BaseModel_init (model_of k) d = Returns p) (items docs) instances →
  list_endpoint k limit s =
    ({| status := 200;
        body := JArray (zip_with (λ d p, <["id" := exposed_id d]> p)
                          (items docs) instances) |}, s').
Proof.
  intros Hwf Hlim Hdocs Hfail Hvalid.
  destruct (Out_of_subclass k) as [cls HOut].
  assert (shape_all (Out_of k) (items docs)
          = Returns (zip_with (λ d p, <["id" := exposed_id d]> p)
                       (items docs) instances)) as Hshape.
  { induction Hvalid as [|d p ds ps Hp _ IH]; simpl; [done|].
    by rewrite HOut, (Out_init_of_base _ _ Hwf d p Hp), <- HOut, IH. }
  rewrite list_endpoint_eq. unfold list_route.
  rewrite Hlim, list_handler_eq, Hdocs. simpl. by rewrite Hshape, Hfail.
Qed.



End Objects.

(** ** What a POST hands to the storage *)

Section Stored.
Context {pydantic : Pydantic} {schemas : Schemas}.

(** X11. A POST calls [create_document] at most once: not at all when the
    body does not validate, and otherwise once, on the collection of the
    kind, with the instance of the model. What is handed over has exactly
    the fields of the model: a key the model does not declare, [_id]
    among them, is not stored. *)
Theorem create_stores_model_fields_only
    (k : document_kind) (request_body : dict) :
  schema_wf (model_of k) = true →
  ((create_endpoint (storage := Recorder_Storage) k request_body []).2 = [] ∧
   ∀ instance, BaseModel_init (model_of k) request_body ≠ Returns instance) ∨
  (∃ payload,
     BaseModel_init (model_of k) request_body = Returns payload ∧
     (create_endpoint (storage := Recorder_Storage) k request_body []).2
       = [CreateDocument (collection k) payload] ∧
     (∀ key, is_Some (payload !! key) ↔ key ∈ field_names (model_of k)) ∧
     payload !! "_id" = None).
Proof.
  intros Hwf. rewrite create_endpoint_eq. unfold post_route.
  destruct (BaseModel_init (model_of k) request_body) as [payload|e] eqn:Hbody.
  - right. exists payload. split; [done|].
    rewrite create_handler_eq. simpl. split; [done|].
    apply BaseModel_init_Returns in Hbody.
    assert (∀ key, is_Some (payload !! key) ↔ key ∈ field_names (model_of k))
      as Hkeys.
    { intros key.
      replace payload with (validate_fields (fields (model_of k)) request_body).2
        by (by rewrite Hbody).
      apply validate_fields_keys. by rewrite Hbody. }
    split; [done|].
    destruct (payload !! "_id") eqn:Hid; [|done].
    destruct (schema_wf_no_underscore_id _ Hwf). apply Hkeys. by eexists.
  - left. by split.
Qed.

End Stored.

(** ** Identifiers that tell documents apart *)

Lemma exposed_id_of_ObjectId (d : dict) (oid : N) :
  d !! "_id" = Some (VObjectId oid) → exposed_id d = VStr (str_ObjectId oid).
Proof. unfold exposed_id, dict_get. by intros ->. Qed.

Section Distinct.
Context {pydantic : Pydantic} {schemas : Schemas} {S : Type} {storage : Storage S}.

(** X12. Two listed documents whose [_id] are different ObjectIds (12
    bytes each) are exposed under different [id] strings. *)
Theorem distinct_ObjectIds_distinct_ids
    (k : document_kind) (limit : option Z) (lim : Z) (s s' s'' : S)
    (docs : cursor) (out : list dict) (i j : nat) (d1 d2 : dict) (a b : N) :
  schema_wf (model_of k) = true →
  Query 20 1 100 limit = Some lim →
  get_documents (collection k) ∅ lim s = (Returns docs, s') →
  list_endpoint k limit s = ({| status := 200; body := JArray out |}, s'') →
  items docs !! i = Some d1 →
  items docs !! j = Some d2 →
  d1 !! "_id" = Some (VObjectId a) →
  d2 !! "_id" = Some (VObjectId b) →
  (a < 2 ^ 96)%N → (b < 2 ^ 96)%N → a ≠ b →
  ∃ o1 o2,
    out !! i = Some o1 ∧ out !! j = Some o2 ∧ o1 !! "id" ≠ o2 !! "id".
Proof.
  intros Hwf Hlim Hdocs Hresp Hd1 Hd2 Ha Hb Hlta Hltb Hne.
  apply list_endpoint_200 in Hresp as (lim' & docs' & Hlim' & Hdocs' & _ & Hout).
  rewrite Hlim in Hlim'. injection Hlim' as <-.
  rewrite Hdocs in Hdocs'. injection Hdocs' as <- <-.
  apply shape_all_Forall2 in Hout.
  destruct (Forall2_lookup_l _ _ _ _ _ Hout Hd1) as (o1 & Ho1 & Hinit1).
  destruct (Forall2_lookup_l _ _ _ _ _ Hout Hd2) as (o2 & Ho2 & Hinit2).
  destruct (Out_of_subclass k) as [cls HOut]. rewrite HOut in Hinit1, Hinit2.
  destruct (Out_init_id _ _ Hwf d1 o1 Hinit1) as [Hid1 _].
  destruct (Out_init_id _ _ Hwf d2 o2 Hinit2) as [Hid2 _].
  exists o1, o2. split; [done|]. split; [done|].
  rewrite Hid1, Hid2, (exposed_id_of_ObjectId d1 a Ha), (exposed_id_of_ObjectId d2 b Hb).
  intros Heq. assert (str_ObjectId a = str_ObjectId b) as Hstr by congruence.
  apply str_ObjectId_inj in Hstr.
  rewrite (N.mod_small a), (N.mod_small b) in Hstr; congruence.
Qed.

End Distinct.

(** ** The further theorems at work on the instances *)

Section MoreInstances.
#[local] Existing Instance example_Pydantic.
#[local] Existing Instance example_Schemas.


Lemma listed_objects_have_model_fields_witness :
  list_endpoint (storage := Mongo_Storage) inquiry None Mongo_own_id
    = ({| status := 200;
          body := JArray [ <["id" := VStr "000000000000000000000000"]>
                             example_inquiry ] |}, Mongo_own_id) ∧
  Forall (λ o, ∀ key, is_Some (o !! key) ↔
                      key = "id" ∨ key ∈ field_names (model_of inquiry))
    [ <["id" := VStr "000000000000000000000000"]> example_inquiry ].
Proof.
  assert (list_endpoint (storage := Mongo_Storage) inquiry None Mongo_own_id
          = ({| status := 200;
                body := JArray [ <["id" := VStr "000000000000000000000000"]>
                                   example_inquiry ] |}, Mongo_own_id))
    as Hresp by (vm_compute; reflexivity).
  split; [exact Hresp|].
  exact (listed_objects_have_model_fields (storage := Mongo_Storage) inquiry None
           Mongo_own_id Mongo_own_id _ Hresp).
Defined.

Lemma listed_id_None_or_nonempty_witness :
  schema_wf (model_of inquiry) = true ∧
  list_endpoint (storage := Mongo_Storage) inquiry (Some 2) Mongo_legacy
    = ({| status := 200;
          body := JArray [ <["id" := VNone]> example_inquiry;
                           <["id" := VNone]> example_inquiry ] |}, Mongo_legacy) ∧
  Forall (λ o, o !! "id" = Some VNone ∨
               ∃ id, o !! "id" = Some (VStr id) ∧ id ≠ "")
    [ <["id" := VNone]> example_inquiry; <["id" := VNone]> example_inquiry ].
Proof.
  assert (schema_wf (model_of inquiry) = true) as Hwf by reflexivity.
  assert (list_endpoint (storage := Mongo_Storage) inquiry (Some 2) Mongo_legacy
          = ({| status := 200;
                body := JArray [ <["id" := VNone]> example_inquiry;
                                 <["id" := VNone]> example_inquiry ] |}, Mongo_legacy))
    as Hresp by (vm_compute; reflexivity).
  repeat (split; [assumption|]).
  exact (listed_id_None_or_nonempty (storage := Mongo_Storage) inquiry (Some 2)
           Mongo_legacy Mongo_legacy _ Hwf Hresp).
Defined.

Lemma invalid_document_fails_listing_witness :
  schema_wf (model_of inquiry) = true ∧
  Query 20 1 100 None = Some 20 ∧
  get_documents (Storage := Mongo_Storage) (collection inquiry) ∅ 20 Mongo_broken
    = (Returns {| items := [ <["_id" := VObjectId 0]> example_inquiry;
                             {[ "_id" := VObjectId 1; "name" := VStr "A" ]} ];
                  failure := None |}, Mongo_broken) ∧
  ({[ "_id" := VObjectId 1; "name" := VStr "A" ]} : dict)
    ∈ [ <["_id" := VObjectId 0]> example_inquiry;
        {[ "_id" := VObjectId 1; "name" := VStr "A" ]} ] ∧
  ("email", required str_type) ∈ fields (model_of inquiry) ∧
  "email" ≠ "id" ∧
  field_value {[ "_id" := VObjectId 1; "name" := VStr "A" ]} "email"
    (required str_type) = None ∧
  ∃ errors, errors ≠ [] ∧
    list_endpoint (storage := Mongo_Storage) inquiry None Mongo_broken =
      (error_response 500 (ValidationError_str (title (Out_of inquiry)) errors),
       Mongo_broken).
Proof.
  assert (schema_wf (model_of inquiry) = true) as Hwf by reflexivity.
  assert (Query 20 1 100 None = Some 20) as Hlim by reflexivity.
  assert (get_documents (Storage := Mongo_Storage) (collection inquiry) ∅ 20
            Mongo_broken
          = (Returns {| items := [ <["_id" := VObjectId 0]> example_inquiry;
                                   {[ "_id" := VObjectId 1; "name" := VStr "A" ]} ];
                        failure := None |}, Mongo_broken))
    as Hdocs by reflexivity.
  assert (({[ "_id" := VObjectId 1; "name" := VStr "A" ]} : dict)
            ∈ [ <["_id" := VObjectId 0]> example_inquiry;
                {[ "_id" := VObjectId 1; "name" := VStr "A" ]} ]) as Hd
    by (apply elem_of_cons; right; apply elem_of_cons; left; reflexivity).
  assert (("email", required str_type) ∈ fields (model_of inquiry)) as Hfield
    by (apply elem_of_cons; right; apply elem_of_cons; left; reflexivity).
  assert ("email" ≠ "id") as Hne by discriminate.
  assert (field_value {[ "_id" := VObjectId 1; "name" := VStr "A" ]} "email"
            (required str_type) = None) as Hbad by reflexivity.
  repeat (split; [assumption|]).
  exact (invalid_document_fails_listing (storage := Mongo_Storage) inquiry None 20
           Mongo_broken Mongo_broken _ _ _ _ Hwf Hlim Hdocs Hd Hfield Hne Hbad).
Defined.

Lemma stored_id_field_is_ignored_witness :
  Query 20 1 100 None = Some 20 ∧
  get_documents (Storage := Mongo_Storage) (collection inquiry) ∅ 20 Mongo_one
    = (Returns {| items := [ <["_id" := VObjectId 0]> example_inquiry ];
                  failure := None |}, Mongo_one) ∧
  get_documents (Storage := Mongo_Storage) (collection inquiry) ∅ 20 Mongo_own_id
    = (Returns {| items := [ <["id" := VStr "mine"]>
                               (<["_id" := VObjectId 0]> example_inquiry) ];
                  failure := None |}, Mongo_own_id) ∧
  Forall2 (λ d d' : dict, delete "id" d = delete "id" d')
    [ <["_id" := VObjectId 0]> example_inquiry ]
    [ <["id" := VStr "mine"]> (<["_id" := VObjectId 0]> example_inquiry) ] ∧
  (list_endpoint (storage := Mongo_Storage) inquiry None Mongo_one).1
    = (list_endpoint (storage := Mongo_Storage) inquiry None Mongo_own_id).1.
Proof.
  assert (Query 20 1 100 None = Some 20) as Hlim by reflexivity.
  assert (get_documents (Storage := Mongo_Storage) (collection inquiry) ∅ 20 Mongo_one
          = (Returns {| items := [ <["_id" := VObjectId 0]> example_inquiry ];
                        failure := None |}, Mongo_one)) as Hdocs1 by reflexivity.
  assert (get_documents (Storage := Mongo_Storage) (collection inquiry) ∅ 20
            Mongo_own_id
          = (Returns {| items := [ <["id" := VStr "mine"]>
                                     (<["_id" := VObjectId 0]> example_inquiry) ];
                        failure := None |}, Mongo_own_id)) as Hdocs2 by reflexivity.
  assert (Forall2 (λ d d' : dict, delete "id" d = delete "id" d')
            [ <["_id" := VObjectId 0]> example_inquiry ]
            [ <["id" := VStr "mine"]> (<["_id" := VObjectId 0]> example_inquiry) ])
    as Hsame by (repeat constructor; vm_compute; reflexivity).
  repeat (split; [assumption|]).
  exact (stored_id_field_is_ignored (storage := Mongo_Storage) inquiry None 20
           Mongo_one Mongo_one Mongo_own_id Mongo_own_id _ _
           Hlim Hdocs1 Hdocs2 Hsame eq_refl).
Defined.

Lemma listing_is_instances_with_id_witness :
  schema_wf (model_of inquiry) = true ∧
  Query 20 1 100 (Some 5) = Some 5 ∧
  get_documents (Storage := Mongo_Storage) (collection inquiry) ∅ 5 Mongo_two
    = (Returns {| items := [ <["_id" := VObjectId 0]> example_inquiry;
                             <["_id" := VObjectId 1]> example_inquiry ];
                  failure := None |}, Mongo_two) ∧
  Forall2 (λ d p, BaseModel_init (model_of inquiry) d = Returns p)
    [ <["_id" := VObjectId 0]> example_inquiry;
      <["_id" := VObjectId 1]> example_inquiry ]
    [ example_inquiry; example_inquiry ] ∧
  list_endpoint (storage := Mongo_Storage) inquiry (Some 5) Mongo_two =
    ({| status := 200;
        body := JArray (zip_with (λ d p, <["id" := exposed_id d]> p)
                          [ <["_id" := VObjectId 0]> example_inquiry;
                            <["_id" := VObjectId 1]> example_inquiry ]
                          [ example_inquiry; example_inquiry ]) |}, Mongo_two).
Proof.
  assert (schema_wf (model_of inquiry) = true) as Hwf by reflexivity.
  assert (Query 20 1 100 (Some 5) = Some 5) as Hlim by reflexivity.
  assert (get_documents (Storage := Mongo_Storage) (collection inquiry) ∅ 5 Mongo_two
          = (Returns {| items := [ <["_id" := VObjectId 0]> example_inquiry;
                                   <["_id" := VObjectId 1]> example_inquiry ];
                        failure := None |}, Mongo_two)) as Hdocs by reflexivity.
  assert (Forall2 (λ d p, BaseModel_init (model_of inquiry) d = Returns p)
            [ <["_id" := VObjectId 0]> example_inquiry;
              <["_id" := VObjectId 1]> example_inquiry ]
            [ example_inquiry; example_inquiry ]) as Hvalid
    by (repeat constructor; vm_compute; reflexivity).
  repeat (split; [assumption|]).
  exact (listing_is_instances_with_id (storage := Mongo_Storage) inquiry (Some 5) 5
           Mongo_two Mongo_two _ _ Hwf Hlim Hdocs eq_refl Hvalid).
Defined.

Lemma create_stores_model_fields_only_witness :
  schema_wf (model_of inquiry) = true ∧
  (((create_endpoint (storage := Recorder_Storage) inquiry
       (<["_id" := VStr "chosen"]> example_inquiry) []).2 = [] ∧
    ∀ instance,
      BaseModel_init (model_of inquiry) (<["_id" := VStr "chosen"]> example_inquiry)
        ≠ Returns instance) ∨
   (∃ payload,
      BaseModel_init (model_of inquiry) (<["_id" := VStr "chosen"]> example_inquiry)
        = Returns payload ∧
      (create_endpoint (storage := Recorder_Storage) inquiry
         (<["_id" := VStr "chosen"]> example_inquiry) []).2
        = [CreateDocument (collection inquiry) payload] ∧
      (∀ key, is_Some (payload !! key) ↔ key ∈ field_names (model_of inquiry)) ∧
      payload !! "_id" = None)).
Proof.
  assert (schema_wf (model_of inquiry) = true) as Hwf by reflexivity.
  split; [exact Hwf|].
  exact (create_stores_model_fields_only inquiry
           (<["_id" := VStr "chosen"]> example_inquiry) Hwf).
Defined.

Lemma distinct_ObjectIds_distinct_ids_witness :
  schema_wf (model_of inquiry) = true ∧
  Query 20 1 100 None = Some 20 ∧
  get_documents (Storage := Mongo_Storage) (collection inquiry) ∅ 20 Mongo_two
    = (Returns {| items := [ <["_id" := VObjectId 0]> example_inquiry;
                             <["_id" := VObjectId 1]> example_inquiry ];
                  failure := None |}, Mongo_two) ∧
  list_endpoint (storage := Mongo_Storage) inquiry None Mongo_two
    = ({| status := 200;
          body := JArray
            [ <["id" := VStr "000000000000000000000000"]> example_inquiry;
              <["id" := VStr "000000000000000000000001"]> example_inquiry ] |},
       Mongo_two) ∧
  (0 < 2 ^ 96)%N ∧ (1 < 2 ^ 96)%N ∧ (0 ≠ 1)%N ∧
  ∃ o1 o2,
    [ <["id" := VStr "000000000000000000000000"]> example_inquiry;
      <["id" := VStr "000000000000000000000001"]> example_inquiry ] !! 0%nat
      = Some o1 ∧
    [ <["id" := VStr "000000000000000000000000"]> example_inquiry;
      <["id" := VStr "000000000000000000000001"]> example_inquiry ] !! 1%nat
      = Some o2 ∧
    o1 !! "id" ≠ o2 !! "id".
Proof.
  assert (schema_wf (model_of inquiry) = true) as Hwf by reflexivity.
  assert (Query 20 1 100 None = Some 20) as Hlim by reflexivity.
  assert (get_documents (Storage := Mongo_Storage) (collection inquiry) ∅ 20 Mongo_two
          = (Returns {| items := [ <["_id" := VObjectId 0]> example_inquiry;
                                   <["_id" := VObjectId 1]> example_inquiry ];
                        failure := None |}, Mongo_two)) as Hdocs by reflexivity.
  assert (list_endpoint (storage := Mongo_Storage) inquiry None Mongo_two
          = ({| status := 200;
                body := JArray
                  [ <["id" := VStr "000000000000000000000000"]> example_inquiry;
                    <["id" := VStr "000000000000000000000001"]> example_inquiry ] |},
             Mongo_two)) as Hresp by (vm_compute; reflexivity).
  assert (0 < 2 ^ 96)%N as Ha by reflexivity.
  assert (1 < 2 ^ 96)%N as Hb by reflexivity.
  assert (0 ≠ 1)%N as Hne by discriminate.
  repeat (split; [assumption|]).
  exact (distinct_ObjectIds_distinct_ids (storage := Mongo_Storage) inquiry None 20
           Mongo_two Mongo_two Mongo_two _ _ 0%nat 1%nat _ _ 0%N 1%N
           Hwf Hlim Hdocs Hresp eq_refl eq_refl eq_refl eq_refl Ha Hb Hne).
Defined.

Example test_database_long_error :
  test_database
    (Some {| name := Returns "illuminati";
             list_collection_names :=
               Raises (Exception "OperationFailure"
                 "0123456789012345678901234567890123456789012345678901234567890123456789") |})
    (λ _, None)
  = Returns {| backend := "✅ Running";
               database :=
                 "⚠️  Connected but Error: 01234567890123456789012345678901234567890123456789";
               database_url := Some "❌ Not Set";
               database_name := Some "❌ Not Set";
               connection_status := "Connected";
               collections := [] |}.
Proof. reflexivity. Qed.

Example post_with_chosen_id :
  (create_endpoint (storage := Recorder_Storage) inquiry
     (<["_id" := VStr "chosen"]> example_inquiry) []).2
  = [CreateDocument "inquiry" example_inquiry].
Proof. vm_compute. reflexivity. Qed.

Example list_broken_store :
  (list_endpoint (storage := Mongo_Storage) inquiry None Mongo_broken).1
  = error_response 500 "validation error for InquiryOut".
Proof. vm_compute. reflexivity. Qed.

End MoreInstances.
